(** * OpsPy-Mesh2Model: section meshing, fiber discretization and undo/redo

    A shallow embedding of the meshing core of the fiber-section GUI:

    - [geometry/shapes.py]   : [Shape], [Rectangle], [PolygonShape];
    - [meshing/mesh.py]      : [Mesh], [Fiber], [MeshGenerator];
    - [data/data_manager.py] : [SectionData], the [Operation] commands and
                               the undo/redo stacks of [DataManager].

    Conventions of the embedding.

    - Python floats are modelled by exact rationals [Q]; a float division
      by zero raises [ZeroDivisionError], as in Python.
    - Python exceptions are explicit: a computation returns an [outcome]
      that is either [Ok] or [Raise], and carries the state reached at that
      point in both cases (a Python exception does not roll mutations back).
    - The external libraries are interfaces: [Shapely] (point containment,
      bounds, polygon area and centroid) and [TriEngine] (the triangulation
      of sectionproperties).  The shapely objects themselves are kept as the
      constructor calls that build them ([Geometry]).
    - [Mesh] objects are shared by reference between a section and the
      commands on the undo stack, so [DataManager] holds a store of meshes
      and sections and commands hold locations into it. *)

From Stdlib Require Import ZArith QArith Qminmax Qround Lia Lqa.
From stdpp Require Import base option list gmap strings pretty.

Open Scope Z_scope.

(** ** Python values, exceptions and outcomes *)

Module Py.

Inductive exn :=
| IndexError | KeyError | ZeroDivisionError
| AttributeError | TypeError | ValueError.

(** The result of running a method on a state of type [S]. *)
Inductive outcome (S A : Type) :=
| Ok (a : A) (s : S)
| Raise (e : exn) (s : S).
Arguments Ok {S A} a s.
Arguments Raise {S A} e s.

Definition state_of {S A} (o : outcome S A) : S :=
  match o with Ok _ s => s | Raise _ s => s end.

(** A value that can be stored in a numeric attribute such as
    [mesh_size]: [None], a float, or anything on which [float()] raises
    [ValueError] or [TypeError] (a non-numeric string, a list, ...). *)
Inductive val :=
| PyNone
| PyFloat (q : Q)
| PyNonNumeric.

(** [float(v)] *)
Definition float (v : val) : exn + Q :=
  match v with
  | PyFloat q => inr q
  | PyNone => inl TypeError
  | PyNonNumeric => inl ValueError
  end.

(** [int(x)] on a float truncates towards zero. *)
Definition int (x : Q) : Z := Z.quot (Qnum x) (Zpos (Qden x)).

(** [getattr(obj, name, default)]: the attribute when the object has it
    ([Some v], whatever the value [v], [None] included), the default only
    when the attribute is missing. *)
Definition getattr {A} (attr : option A) (default : A) : A :=
  match attr with
  | Some v => v
  | None => default
  end.

(** [x or 1] on an optional integer: [None] and [0] are falsy. *)
Definition or_1 (x : option Z) : Z :=
  match x with
  | None => 1
  | Some 0 => 1
  | Some v => v
  end.

(** [min(a, b)] and [max(a, b)]: the first argument wins ties. *)
Definition min (a b : Q) : Q := if Qlt_le_dec b a then b else a.
Definition max (a b : Q) : Q := if Qlt_le_dec a b then b else a.

End Py.

Import Py.

(** ** geometry/shapes.py *)

Definition point : Type := Q * Q.

Definition point_eqb (p q : point) : bool :=
  Qeq_bool p.1 q.1 && Qeq_bool p.2 q.2.

(** The shapely objects the shapes hold, as the calls that construct them. *)
Inductive Geometry :=
| Polygon (shell : list point)
| Rotate (g : Geometry) (angle : Q) (origin : point).

Module Shape.

(** [Shape.__init__] and the attributes every subclass inherits.
    [vertices] is [None] until a subclass sets it. *)
Record t := mk {
  id : Z;
  material_id : option Z;
  vertices : option (list point);
  geometry : Geometry;
  active : bool;
  mesh_size : Py.val;
  mesh_type : string;
}.

Definition is_active (s : t) : bool := active s.

End Shape.

(** [Rectangle._generate_vertices] *)
Definition Rectangle_generate_vertices (center_y center_z width height : Q)
  : list point :=
  let half_w := (width / 2)%Q in
  let half_h := (height / 2)%Q in
  [ ((center_y - half_w)%Q, (center_z - half_h)%Q);
    ((center_y + half_w)%Q, (center_z - half_h)%Q);
    ((center_y + half_w)%Q, (center_z + half_h)%Q);
    ((center_y - half_w)%Q, (center_z + half_h)%Q);
    ((center_y - half_w)%Q, (center_z - half_h)%Q) ].

(** [Rectangle._create_geometry] *)
Definition Rectangle_create_geometry (vertices : list point)
    (rotation center_y center_z : Q) : Geometry :=
  let polygon := Polygon (removelast vertices) in
  if negb (Qeq_bool rotation 0)
  then Rotate polygon rotation (center_y, center_z)
  else polygon.

(** [Rectangle.__init__] *)
Definition Rectangle (shape_id : Z) (center_y center_z width height rotation : Q)
  : Shape.t :=
  let vertices := Rectangle_generate_vertices center_y center_z width height in
  Shape.mk shape_id None (Some vertices)
    (Rectangle_create_geometry vertices rotation center_y center_z)
    true PyNone "triangular".

(** The default polygon of [PolygonShape._create_geometry]. *)
Definition unit_square : list point :=
  [ (0, 0)%Q; (1, 0)%Q; (1, 1)%Q; (0, 1)%Q ].

(** [PolygonShape._create_geometry]: returns the geometry together with
    [self.vertices], which the method closes in place. *)
Definition PolygonShape_create_geometry (vertices : option (list point))
  : option (list point) * Geometry :=
  match vertices with
  | None => (vertices, Polygon unit_square)
  | Some [] => (vertices, Polygon unit_square)
  | Some (v0 :: rest) =>
      let vs := v0 :: rest in
      let vs :=
        if negb (point_eqb v0 (List.last vs v0)) then vs ++ [v0] else vs in
      (Some vs, Polygon (removelast vs))
  end.

(** [PolygonShape.__init__] *)
Definition PolygonShape (shape_id : Z) (vertices : option (list point))
  : Shape.t :=
  let '(vertices, geometry) := PolygonShape_create_geometry vertices in
  Shape.mk shape_id None vertices geometry true PyNone "triangular".


(** ** The external geometry libraries *)

(** What the code asks of shapely; the library's own failures are not
    part of the model. *)
Class Shapely := {
  (** [geometry.contains(Point(p))]: interior only *)
  contains : Geometry → point → bool;
  (** [geometry.touches(Point(p))]: boundary only *)
  touches : Geometry → point → bool;
  (** [geometry.bounds]: [(minx, miny, maxx, maxy)] *)
  bounds : Geometry → Q * Q * Q * Q;
  (** [geometry.exterior.coords] and the coordinates of [geometry.interiors] *)
  exterior_coords : Geometry → list point;
  interiors_coords : Geometry → list (list point);
  (** [Polygon(coords).area] and [Polygon(coords).centroid] *)
  polygon_area : list point → Q;
  polygon_centroid : list point → point;
}.

(** The input of sectionproperties' [Geometry(Polygon(shell, holes))]. *)
Definition sp_geometry : Type := list point * list (list point).

(** The [section.mesh] dictionary: its ['vertices'] and ['triangles']. *)
Record tri_output := {
  mesh_vertices : list (list Q);
  mesh_triangles : list (list nat);
}.

(** [compound_geometry.create_mesh(mesh_sizes=...)] followed by
    [Section(compound_geometry)]; [None] when either raises. *)
Class TriEngine := {
  create_mesh : list sp_geometry → Q → option tri_output;
}.

(** ** meshing/mesh.py *)

Module Fiber.

(** [Fiber.__init__] sets [active] to [True]. *)
Record t := mk {
  id : Z;
  y : Q;
  z : Q;
  area : Q;
  material_id : Z;
  active : bool;
}.

Definition new (fiber_id : Z) (y z area : Q) (material_id : Z) : t :=
  mk fiber_id y z area material_id true.

End Fiber.

Module Mesh.

Record t := mk {
  id : Z;
  nodes : list point;
  elements : list (list nat);
  element_materials : list Z;
  fibers : list Fiber.t;
}.

(** [Mesh.__init__] *)
Definition new (mesh_id : Z) : t := mk mesh_id [] [] [] [].

Definition with_fibers (fs : list Fiber.t) (m : t) : t :=
  mk (id m) (nodes m) (elements m) (element_materials m) fs.

(** [Mesh.add_node] *)
Definition add_node (m : t) (y z : Q) : t * nat :=
  let m' := mk (id m) (nodes m ++ [(y, z)]) (elements m)
               (element_materials m) (fibers m) in
  (m', (length (nodes m') - 1)%nat).

(** [Mesh.add_element] *)
Definition add_element (m : t) (node_ids : list nat) (material_id : Z)
  : t * nat :=
  let m' := mk (id m) (nodes m) (elements m ++ [node_ids])
               (element_materials m ++ [material_id]) (fibers m) in
  (m', (length (elements m') - 1)%nat).

(** The invariant of the data model: every index of every element is an
    index into [nodes]. *)
Definition indices_valid (m : t) : Prop :=
  Forall (Forall (λ n, (n < length (nodes m))%nat)) (elements m).

Section Fibers.
Context `{Shapely}.

(** The material loop of [generate_fibers]: the first shape that is
    active and contains the point decides, and the loop breaks there. *)
Fixpoint resolve_material (shapes : list Shape.t) (p : point)
    (material_id : Z) : Z :=
  match shapes with
  | [] => material_id
  | shape :: shapes =>
      if Shape.is_active shape && contains (Shape.geometry shape) p
      then match Shape.material_id shape with
           | Some mat => mat
           | None => material_id
           end
      else resolve_material shapes p material_id
  end.

(** [[self.nodes[node_id] for node_id in element]] *)
Fixpoint node_coords (nodes : list point) (element : list nat)
  : option (list point) :=
  match element with
  | [] => Some []
  | node_id :: element =>
      match nodes !! node_id with
      | None => None
      | Some c =>
          match node_coords nodes element with
          | None => None
          | Some cs => Some (c :: cs)
          end
      end
  end.

(** The body of the loop over [self.elements]. *)
Fixpoint fibers_loop (shapes : list Shape.t) (els : list (list nat))
    (fiber_id : Z) (m : t) : outcome t unit :=
  match els with
  | [] => Ok tt m
  | element :: els =>
      match node_coords (nodes m) element with
      | None => Raise IndexError m
      | Some coords =>
          let area := polygon_area coords in
          let '(y, z) := polygon_centroid coords in
          let material_id := resolve_material shapes (y, z) 1 in
          let fiber := Fiber.new fiber_id y z area material_id in
          fibers_loop shapes els (fiber_id + 1)
            (with_fibers (fibers m ++ [fiber]) m)
      end
  end.

(** [Mesh.generate_fibers] *)
Definition generate_fibers (shapes : list Shape.t) (m : t)
  : outcome t (list Fiber.t) :=
  let m := with_fibers [] m in
  match fibers_loop shapes (elements m) 1 m with
  | Ok _ m => Ok (fibers m) m
  | Raise e m => Raise e m
  end.

End Fibers.

End Mesh.

Module MeshGenerator.

(** The generator's only attribute is [current_mesh_id]; it is the state
    the methods below run on. *)

(** The first lines of both [_generate_tri_mesh] and
    [_generate_quad_mesh]: [None] becomes [0.1], then [float(mesh_size)]
    with [0.1] again when it raises. *)
Definition coerce_mesh_size (mesh_size : Py.val) : Q :=
  let mesh_size :=
    match mesh_size with
    | PyNone => PyFloat (1 # 10)
    | _ => mesh_size
    end in
  match Py.float mesh_size with
  | inr q => q
  | inl _ => (1 # 10)%Q
  end.

Definition swap (p : point) : point := (p.2, p.1).

Section Generator.
Context `{Shapely} `{TriEngine}.

(** *** The triangular strategy *)

(** The loop that builds [geometries]: one sectionproperties geometry
    per active shape, with the coordinates swapped. *)
Fixpoint tri_geometries (shapes : list Shape.t) : list sp_geometry :=
  match shapes with
  | [] => []
  | shape :: shapes =>
      if Shape.active shape
      then
        let exterior := map swap (exterior_coords (Shape.geometry shape)) in
        let interiors :=
          map (map swap) (interiors_coords (Shape.geometry shape)) in
        (exterior, interiors) :: tri_geometries shapes
      else tri_geometries shapes
  end.

(** The loop over [mesh_vertices]: a vertex with fewer than two
    coordinates is reported and skipped. *)
Fixpoint tri_add_nodes (vertices : list (list Q)) (mesh : Mesh.t) : Mesh.t :=
  match vertices with
  | [] => mesh
  | vertex :: vertices =>
      match vertex with
      | x :: y :: _ => tri_add_nodes vertices (Mesh.add_node mesh y x).1
      | _ => tri_add_nodes vertices mesh
      end
  end.

(** The loop over [mesh_triangles]: the first three node ids of each
    row, rows shorter than that being reported and skipped. *)
Fixpoint tri_add_elements (triangles : list (list nat)) (mesh : Mesh.t)
  : Mesh.t :=
  match triangles with
  | [] => mesh
  | triangle :: triangles =>
      if decide (3 ≤ length triangle)%nat
      then tri_add_elements triangles
             (Mesh.add_element mesh (take 3 triangle) 1).1
      else tri_add_elements triangles mesh
  end.

(** [MeshGenerator._generate_tri_mesh].  Every shape holds a polygon, so
    the branch for geometries with an exterior is the one taken, and
    [section.mesh] is the dictionary sectionproperties builds, so nodes and
    elements are read from its ['vertices'] and ['triangles']. *)
Definition _generate_tri_mesh (shapes : list Shape.t) (mesh_size : Py.val)
    (current_mesh_id : Z) : outcome Z (option Mesh.t) :=
  let mesh_size := coerce_mesh_size mesh_size in
  let geometries := tri_geometries shapes in
  match geometries with
  | [] => Ok None current_mesh_id
  | _ :: _ =>
      match create_mesh geometries mesh_size with
      | None => Ok None current_mesh_id
      | Some section_mesh =>
          let mesh := Mesh.new current_mesh_id in
          let current_mesh_id := current_mesh_id + 1 in
          let mesh := tri_add_nodes (mesh_vertices section_mesh) mesh in
          let mesh := tri_add_elements (mesh_triangles section_mesh) mesh in
          Ok (Some mesh) current_mesh_id
      end
  end.

(** *** The quadrilateral strategy *)

(** The loop over [shapes] that collects the active shapes and their
    common bounding box [(min_y, min_z, max_y, max_z)]; the box is
    [None] as long as the four bounds still hold their infinite
    initial values. *)
Fixpoint quad_bounding_box (shapes : list Shape.t)
    (box : option (Q * Q * Q * Q)) : option (Q * Q * Q * Q) :=
  match shapes with
  | [] => box
  | shape :: shapes =>
      if Shape.active shape
      then
        let '(b0, b1, b2, b3) := bounds (Shape.geometry shape) in
        let box :=
          match box with
          | None => (b0, b1, b2, b3)
          | Some (min_y, min_z, max_y, max_z) =>
              (Py.min min_y b0, Py.min min_z b1,
               Py.max max_y b2, Py.max max_z b3)
          end in
        quad_bounding_box shapes (Some box)
      else quad_bounding_box shapes box
  end.

(** The inner loop of the node generation: one row of the grid. *)
Fixpoint quad_node_row (js : list nat) (i : nat)
    (min_y min_z width height : Q) (num_y num_z : Z)
    (mesh : Mesh.t) (row : list nat) : Mesh.t * list nat :=
  match js with
  | [] => (mesh, row)
  | j :: js =>
      let y := (min_y + inject_Z (Z.of_nat j) * width / inject_Z num_y)%Q in
      let z := (min_z + inject_Z (Z.of_nat i) * height / inject_Z num_z)%Q in
      let '(mesh, node_id) := Mesh.add_node mesh y z in
      quad_node_row js i min_y min_z width height num_y num_z
        mesh (row ++ [node_id])
  end.

(** The outer loop of the node generation. *)
Fixpoint quad_node_rows (rows : list nat)
    (min_y min_z width height : Q) (num_y num_z : Z)
    (mesh : Mesh.t) (node_grid : list (list nat))
  : Mesh.t * list (list nat) :=
  match rows with
  | [] => (mesh, node_grid)
  | i :: rows =>
      let '(mesh, row) :=
        quad_node_row (seq 0 (Z.to_nat (num_y + 1))) i
          min_y min_z width height num_y num_z mesh [] in
      quad_node_rows rows min_y min_z width height num_y num_z
        mesh (node_grid ++ [row])
  end.

(** The test on one corner: inside or touching one of the active
    shapes. *)
Definition corner_inside (active_shapes : list Shape.t) (p : point) : bool :=
  existsb (λ shape, contains (Shape.geometry shape) p
                    || touches (Shape.geometry shape) p) active_shapes.

(** The loop that counts the corners of a cell. *)
Fixpoint inside_count (active_shapes : list Shape.t) (points : list point)
    (count : nat) : nat :=
  match points with
  | [] => count
  | p :: points =>
      inside_count active_shapes points
        (if corner_inside active_shapes p then S count else count)
  end.

(** [node_grid[i][j]] *)
Definition grid_at (node_grid : list (list nat)) (i j : nat) : option nat :=
  row ← node_grid !! i; row !! j.

(** The body of the loops over the cells; [None] stands for an
    [IndexError]. *)
Definition quad_cell (node_grid : list (list nat))
    (active_shapes : list Shape.t) (i j : nat) (mesh : Mesh.t)
  : option Mesh.t :=
  n1 ← grid_at node_grid i j;
  n2 ← grid_at node_grid i (j + 1);
  n3 ← grid_at node_grid (i + 1) (j + 1);
  n4 ← grid_at node_grid (i + 1) j;
  point1 ← Mesh.nodes mesh !! n1;
  point2 ← Mesh.nodes mesh !! n2;
  point3 ← Mesh.nodes mesh !! n3;
  point4 ← Mesh.nodes mesh !! n4;
  let count :=
    inside_count active_shapes [point1; point2; point3; point4] 0 in
  if decide (3 ≤ count)%nat
  then Some (Mesh.add_element mesh [n1; n2; n3; n4] 1).1
  else Some mesh.

Fixpoint quad_cell_row (js : list nat) (i : nat)
    (node_grid : list (list nat)) (active_shapes : list Shape.t)
    (mesh : Mesh.t) : option Mesh.t :=
  match js with
  | [] => Some mesh
  | j :: js =>
      mesh ← quad_cell node_grid active_shapes i j mesh;
      quad_cell_row js i node_grid active_shapes mesh
  end.

Fixpoint quad_cell_rows (rows : list nat) (num_y : Z)
    (node_grid : list (list nat)) (active_shapes : list Shape.t)
    (mesh : Mesh.t) : option Mesh.t :=
  match rows with
  | [] => Some mesh
  | i :: rows =>
      mesh ← quad_cell_row (seq 0 (Z.to_nat num_y)) i
                node_grid active_shapes mesh;
      quad_cell_rows rows num_y node_grid active_shapes mesh
  end.

(** [MeshGenerator._generate_quad_mesh].  Every shape holds a shapely
    geometry, which has [bounds], so the fallback on [shape.vertices] is
    not reached. *)
Definition _generate_quad_mesh (shapes : list Shape.t) (mesh_size : Py.val)
    (current_mesh_id : Z) : outcome Z (option Mesh.t) :=
  let mesh_size := coerce_mesh_size mesh_size in
  match shapes with
  | [] => Ok None current_mesh_id
  | _ :: _ =>
      let mesh := Mesh.new current_mesh_id in
      let current_mesh_id := current_mesh_id + 1 in
      let active_shapes := filter (λ shape, Shape.active shape = true) shapes in
      match quad_bounding_box shapes None with
      | None => Ok None current_mesh_id
      | Some (min_y, min_z, max_y, max_z) =>
          let height := (max_z - min_z)%Q in
          let width := (max_y - min_y)%Q in
          if Qeq_bool mesh_size 0
          then Raise ZeroDivisionError current_mesh_id
          else
            let num_y := Z.max 2 (Py.int (width / mesh_size)) in
            let num_z := Z.max 2 (Py.int (height / mesh_size)) in
            let '(mesh, node_grid) :=
              quad_node_rows (seq 0 (Z.to_nat (num_z + 1)))
                min_y min_z width height num_y num_z mesh [] in
            match quad_cell_rows (seq 0 (Z.to_nat num_z)) num_y
                    node_grid active_shapes mesh with
            | None => Raise IndexError current_mesh_id
            | Some mesh => Ok (Some mesh) current_mesh_id
            end
      end
  end.

(** *** Merging the per-shape meshes *)

(** The loop over [enumerate(shape_mesh.nodes)]. *)
Fixpoint merge_nodes (shape_nodes : list point) (old_node_id : nat)
    (merged_mesh : Mesh.t) (node_mapping : gmap nat nat)
  : Mesh.t * gmap nat nat :=
  match shape_nodes with
  | [] => (merged_mesh, node_mapping)
  | (y, z) :: shape_nodes =>
      let '(merged_mesh, new_node_id) := Mesh.add_node merged_mesh y z in
      merge_nodes shape_nodes (S old_node_id) merged_mesh
        (<[old_node_id := new_node_id]> node_mapping)
  end.

(** [[node_mapping[old_id] for old_id in element]]; [None] stands for a
    [KeyError]. *)
Definition map_element (node_mapping : gmap nat nat) (element : list nat)
  : option (list nat) :=
  mapM (λ old_id, node_mapping !! old_id) element.

(** The loop over [shape_mesh.elements]. *)
Fixpoint merge_elements (shape_elements : list (list nat))
    (node_mapping : gmap nat nat) (material_id : Z) (merged_mesh : Mesh.t)
  : option Mesh.t :=
  match shape_elements with
  | [] => Some merged_mesh
  | element :: shape_elements =>
      mapped_element ← map_element node_mapping element;
      merge_elements shape_elements node_mapping material_id
        (Mesh.add_element merged_mesh mapped_element material_id).1
  end.

(** The mesh size [generate_mesh] hands to the strategies.  Every
    [Shape] has a [mesh_size] attribute ([Shape.__init__] sets it to
    [None]), so [getattr] finds it. *)
Definition shape_mesh_size (shape : Shape.t) (global_mesh_size : Py.val)
  : Py.val :=
  Py.getattr (Some (Shape.mesh_size shape)) global_mesh_size.

(** The mesh size a strategy works with for a shape. *)
Definition effective_mesh_size (shape : Shape.t) (global_mesh_size : Py.val)
  : Q :=
  coerce_mesh_size (shape_mesh_size shape global_mesh_size).

(** The dispatch of [generate_mesh] on the mesh type of a shape. *)
Definition generate_shape_mesh (shape : Shape.t) (global_mesh_size : Py.val)
    (current_mesh_id : Z) : outcome Z (option Mesh.t) :=
  let mesh_type := Py.getattr (Some (Shape.mesh_type shape)) "triangular" in
  let mesh_size := shape_mesh_size shape global_mesh_size in
  if String.eqb mesh_type "quadrilateral"
  then _generate_quad_mesh [shape] mesh_size current_mesh_id
  else _generate_tri_mesh [shape] mesh_size current_mesh_id.

(** The merge of one shape's mesh into [merged_mesh]; [None] stands for
    a [KeyError]. *)
Definition merge_shape_mesh (shape : Shape.t) (shape_mesh : Mesh.t)
    (merged_mesh : Mesh.t) : option Mesh.t :=
  let '(merged_mesh, node_mapping) :=
    merge_nodes (Mesh.nodes shape_mesh) 0 merged_mesh ∅ in
  merge_elements (Mesh.elements shape_mesh) node_mapping
    (Py.or_1 (Shape.material_id shape)) merged_mesh.

(** The loop of [generate_mesh] over the shapes. *)
Fixpoint mesh_shapes (shapes : list Shape.t) (global_mesh_size : Py.val)
    (merged_mesh : Mesh.t) (current_mesh_id : Z) : outcome Z Mesh.t :=
  match shapes with
  | [] => Ok merged_mesh current_mesh_id
  | shape :: shapes =>
      if Shape.active shape
      then
        match generate_shape_mesh shape global_mesh_size
                current_mesh_id with
        | Raise e current_mesh_id => Raise e current_mesh_id
        | Ok None current_mesh_id =>
            mesh_shapes shapes global_mesh_size merged_mesh current_mesh_id
        | Ok (Some shape_mesh) current_mesh_id =>
            match merge_shape_mesh shape shape_mesh merged_mesh with
            | None => Raise KeyError current_mesh_id
            | Some merged_mesh =>
                mesh_shapes shapes global_mesh_size merged_mesh
                  current_mesh_id
            end
        end
      else mesh_shapes shapes global_mesh_size merged_mesh current_mesh_id
  end.

(** [MeshGenerator.generate_mesh] *)
Definition generate_mesh (shapes : list Shape.t) (global_mesh_size : Py.val)
    (current_mesh_id : Z) : outcome Z (option Mesh.t) :=
  match shapes with
  | [] => Ok None current_mesh_id
  | _ :: _ =>
      let merged_mesh := Mesh.new current_mesh_id in
      let current_mesh_id := current_mesh_id + 1 in
      match mesh_shapes shapes global_mesh_size merged_mesh
              current_mesh_id with
      | Ok merged_mesh current_mesh_id =>
          Ok (Some merged_mesh) current_mesh_id
      | Raise e current_mesh_id => Raise e current_mesh_id
      end
  end.

(** [MeshGenerator.generate_fibers_from_mesh] *)
Definition generate_fibers_from_mesh (mesh : Mesh.t) (shapes : list Shape.t)
  : outcome Mesh.t (list Fiber.t) :=
  Mesh.generate_fibers shapes mesh.

End Generator.

End MeshGenerator.

(** ** data/data_manager.py *)

(** A reference to a [Mesh] object. *)
Abbreviation mesh_ref := nat.

Module SectionData.

(** The attributes of a section; the two time stamps, which only record
    the clock, are left out. *)
Record t := mk {
  id : Z;
  name : string;
  shapes : list Shape.t;
  mesh : option mesh_ref;
  fibers : list Fiber.t;
  GJ : Q;
}.

(** [SectionData.__init__] *)
Definition new (section_id : Z) (name : string) : t :=
  mk section_id name [] None [] 0%Q.

(** [SectionData.add_shape] *)
Definition add_shape (shape : Shape.t) (s : t) : t :=
  mk (id s) (name s) (shapes s ++ [shape]) (mesh s) (fibers s) (GJ s).

(** The loop of [remove_shape]: delete the first shape with that id. *)
Fixpoint remove_first (shape_id : Z) (shapes : list Shape.t)
  : list Shape.t :=
  match shapes with
  | [] => []
  | shape :: shapes =>
      if decide (Shape.id shape = shape_id) then shapes
      else shape :: remove_first shape_id shapes
  end.

(** [SectionData.remove_shape] *)
Definition remove_shape (shape_id : Z) (s : t) : t :=
  mk (id s) (name s) (remove_first shape_id (shapes s)) (mesh s)
     (fibers s) (GJ s).

(** [SectionData.get_shape_by_id] *)
Definition get_shape_by_id (shape_id : Z) (s : t) : option Shape.t :=
  List.find (λ shape, bool_decide (Shape.id shape = shape_id)) (shapes s).

(** [SectionData.get_active_shapes] *)
Definition get_active_shapes (s : t) : list Shape.t :=
  filter (λ shape, Shape.active shape = true) (shapes s).

(** [SectionData.set_mesh] *)
Definition set_mesh (mesh : option mesh_ref) (s : t) : t :=
  mk (id s) (name s) (shapes s) mesh (fibers s) (GJ s).

(** [SectionData.set_fibers] *)
Definition set_fibers (fibers : list Fiber.t) (s : t) : t :=
  mk (id s) (name s) (shapes s) (mesh s) fibers (GJ s).

End SectionData.

(** The three commands.  [GenerateMesh] holds references to the old and
    the new mesh, and [old_fibers], which is [None] until [execute] runs. *)
Inductive Operation :=
| OperationAddShape (section_id : Z) (shape : Shape.t)
| OperationDeleteShape (section_id : Z) (shape : Shape.t)
| OperationGenerateMesh (section_id : Z) (old_mesh new_mesh : option mesh_ref)
    (old_fibers : option (list Fiber.t)).

Module DataManager.

(** The sections, the store of the [Mesh] objects they and the commands
    refer to, and the two stacks.  A stack is a Python list: [append]
    adds at the end and [pop] takes from the end. *)
Record t := mk {
  sections : list SectionData.t;
  current_section_id : option Z;
  meshes : gmap mesh_ref Mesh.t;
  undo_stack : list Operation;
  redo_stack : list Operation;
}.

Definition with_sections (ss : list SectionData.t) (dm : t) : t :=
  mk ss (current_section_id dm) (meshes dm) (undo_stack dm) (redo_stack dm).

Definition with_meshes (ms : gmap mesh_ref Mesh.t) (dm : t) : t :=
  mk (sections dm) (current_section_id dm) ms (undo_stack dm) (redo_stack dm).

Definition with_stacks (us rs : list Operation) (dm : t) : t :=
  mk (sections dm) (current_section_id dm) (meshes dm) us rs.

(** [DataManager.get_section_by_id]: the first section with that id. *)
Definition get_section_by_id (section_id : Z) (dm : t)
  : option SectionData.t :=
  List.find (λ s, bool_decide (SectionData.id s = section_id)) (sections dm).

(** The effect of mutating the object [get_section_by_id] returned. *)
Fixpoint update_first (section_id : Z) (f : SectionData.t → SectionData.t)
    (ss : list SectionData.t) : list SectionData.t :=
  match ss with
  | [] => []
  | s :: ss =>
      if bool_decide (SectionData.id s = section_id) then f s :: ss
      else s :: update_first section_id f ss
  end.

Definition update_section (section_id : Z)
    (f : SectionData.t → SectionData.t) (dm : t) : t :=
  with_sections (update_first section_id f (sections dm)) dm.

(** [list.pop()] *)
Definition pop {A} (l : list A) : option (A * list A) :=
  match last l with
  | Some x => Some (x, removelast l)
  | None => None
  end.

(** The merge of [OperationGenerateMesh.execute]: the existing fibers,
    then the mesh fibers whose id is not in [existing_fiber_ids]. *)
Fixpoint append_new (new_mesh_fibers : list Fiber.t)
    (existing_fiber_ids : gset Z) (merged_fibers : list Fiber.t)
  : list Fiber.t :=
  match new_mesh_fibers with
  | [] => merged_fibers
  | fiber :: new_mesh_fibers =>
      if decide (Fiber.id fiber ∉ existing_fiber_ids)
      then append_new new_mesh_fibers existing_fiber_ids
             (merged_fibers ++ [fiber])
      else append_new new_mesh_fibers existing_fiber_ids merged_fibers
  end.

Definition merge_fibers (existing_fibers new_mesh_fibers : list Fiber.t)
  : list Fiber.t :=
  let merged_fibers := existing_fibers in
  let existing_fiber_ids : gset Z :=
    list_to_set (Fiber.id <$> existing_fibers) in
  append_new new_mesh_fibers existing_fiber_ids merged_fibers.

Section Operations.
Context `{Shapely}.

(** [OperationGenerateMesh.execute]; the result is the command with its
    [old_fibers] updated. *)
Definition execute_generate_mesh (section_id : Z)
    (old_mesh new_mesh : option mesh_ref)
    (old_fibers : option (list Fiber.t)) (dm : t) : outcome t Operation :=
  match get_section_by_id section_id dm with
  | None =>
      Ok (OperationGenerateMesh section_id old_mesh new_mesh old_fibers) dm
  | Some section =>
      let old_fibers := Some (SectionData.fibers section) in
      let dm := update_section section_id (SectionData.set_mesh new_mesh) dm in
      let existing_fibers := SectionData.fibers section in
      let generated : outcome t (list Fiber.t) :=
        match new_mesh with
        | Some r =>
            match meshes dm !! r with
            | Some m =>
                let active_shapes := SectionData.get_active_shapes section in
                match Mesh.generate_fibers active_shapes m with
                | Ok fs m => Ok fs (with_meshes (<[r := m]> (meshes dm)) dm)
                | Raise e m =>
                    Raise e (with_meshes (<[r := m]> (meshes dm)) dm)
                end
            | None => Raise AttributeError dm  (* no reference dangles *)
            end
        | None => Ok [] dm
        end in
      match generated with
      | Raise e dm => Raise e dm
      | Ok new_mesh_fibers dm =>
          let merged_fibers := merge_fibers existing_fibers new_mesh_fibers in
          let dm :=
            update_section section_id
              (SectionData.set_fibers merged_fibers) dm in
          match new_mesh with
          | None => Raise AttributeError dm
          | Some r =>
              Ok (OperationGenerateMesh section_id old_mesh new_mesh
                    old_fibers)
                 (with_meshes
                    (alter (Mesh.with_fibers new_mesh_fibers) r (meshes dm))
                    dm)
          end
      end
  end.

(** [OperationGenerateMesh.undo] *)
Definition undo_generate_mesh (section_id : Z)
    (old_mesh new_mesh : option mesh_ref)
    (old_fibers : option (list Fiber.t)) (dm : t) : t :=
  match get_section_by_id section_id dm with
  | None => dm
  | Some section =>
      let dm := update_section section_id (SectionData.set_mesh old_mesh) dm in
      let restored :=
        match old_fibers, old_mesh with
        | Some fs, _ => fs
        | None, Some r => default [] (Mesh.fibers <$> meshes dm !! r)
        | None, None => []
        end in
      let dm :=
        update_section section_id (SectionData.set_fibers restored) dm in
      match old_mesh with
      | Some r =>
          with_meshes
            (alter (Mesh.with_fibers (default [] old_fibers)) r (meshes dm))
            dm
      | None => dm
      end
  end.

(** [execute] of any command. *)
Definition execute (op : Operation) (dm : t) : outcome t Operation :=
  match op with
  | OperationAddShape section_id shape =>
      Ok op (update_section section_id (SectionData.add_shape shape) dm)
  | OperationDeleteShape section_id shape =>
      Ok op (update_section section_id
               (SectionData.remove_shape (Shape.id shape)) dm)
  | OperationGenerateMesh section_id old_mesh new_mesh old_fibers =>
      execute_generate_mesh section_id old_mesh new_mesh old_fibers dm
  end.

(** [undo] of any command. *)
Definition undo_operation (op : Operation) (dm : t) : t :=
  match op with
  | OperationAddShape section_id shape =>
      update_section section_id
        (SectionData.remove_shape (Shape.id shape)) dm
  | OperationDeleteShape section_id shape =>
      update_section section_id (SectionData.add_shape shape) dm
  | OperationGenerateMesh section_id old_mesh new_mesh old_fibers =>
      undo_generate_mesh section_id old_mesh new_mesh old_fibers dm
  end.

(** The three lines that follow [operation.execute(self)]. *)
Definition record_operation (op : Operation) (dm : t) : t :=
  with_stacks (undo_stack dm ++ [op]) [] dm.

(** [DataManager.add_shape] *)
Definition add_shape (section_id : Z) (shape : Shape.t) (dm : t)
  : outcome t unit :=
  match execute (OperationAddShape section_id shape) dm with
  | Ok op dm => Ok tt (record_operation op dm)
  | Raise e dm => Raise e dm
  end.

(** [DataManager.delete_shape] *)
Definition delete_shape (section_id shape_id : Z) (dm : t)
  : outcome t bool :=
  match get_section_by_id section_id dm with
  | None => Ok false dm
  | Some section =>
      match SectionData.get_shape_by_id shape_id section with
      | None => Ok false dm
      | Some shape =>
          match execute (OperationDeleteShape section_id shape) dm with
          | Ok op dm => Ok true (record_operation op dm)
          | Raise e dm => Raise e dm
          end
      end
  end.

(** [DataManager.generate_mesh] *)
Definition generate_mesh (section_id : Z) (mesh : option mesh_ref) (dm : t)
  : outcome t bool :=
  match get_section_by_id section_id dm with
  | None => Ok false dm
  | Some section =>
      let old_mesh := SectionData.mesh section in
      match execute (OperationGenerateMesh section_id old_mesh mesh None)
              dm with
      | Ok op dm => Ok true (record_operation op dm)
      | Raise e dm => Raise e dm
      end
  end.

(** [DataManager.undo]; the result tells whether a command was undone
    (the method returns its description, or [None]). *)
Definition undo (dm : t) : bool * t :=
  match pop (undo_stack dm) with
  | None => (false, dm)
  | Some (operation, rest) =>
      let dm := with_stacks rest (redo_stack dm) dm in
      let dm := undo_operation operation dm in
      (true, with_stacks (undo_stack dm) (redo_stack dm ++ [operation]) dm)
  end.



End Operations.

End DataManager.

(** ** The remaining methods of meshing/mesh.py *)


(** [Mesh.get_fibers_by_material] *)
Definition Mesh_get_fibers_by_material (m : Mesh.t) (material_id : Z)
  : list Fiber.t :=
  filter (λ fiber, Fiber.material_id fiber = material_id) (Mesh.fibers m).

(** [Fiber.update_material], [Fiber.activate] and [Fiber.deactivate] *)
Definition Fiber_update_material (material_id : Z) (f : Fiber.t) : Fiber.t :=
  Fiber.mk (Fiber.id f) (Fiber.y f) (Fiber.z f) (Fiber.area f) material_id
    (Fiber.active f).

Definition Fiber_set_active (active : bool) (f : Fiber.t) : Fiber.t :=
  Fiber.mk (Fiber.id f) (Fiber.y f) (Fiber.z f) (Fiber.area f)
    (Fiber.material_id f) active.

Definition Fiber_activate : Fiber.t → Fiber.t := Fiber_set_active true.
Definition Fiber_deactivate : Fiber.t → Fiber.t := Fiber_set_active false.

(** The dictionary [Fiber.to_dict] builds and [Fiber.from_dict] reads: its
    six keys, each of which a dictionary may lack. *)
Module FiberDict.

Record t := mk {
  id : option Z;
  y : option Q;
  z : option Q;
  area : option Q;
  material_id : option Z;
  active : option bool;
}.

End FiberDict.

(** [data[key]]: a missing key raises [KeyError]. *)
Definition dict_item {A} (entry : option A) : exn + A :=
  match entry with
  | Some v => inr v
  | None => inl KeyError
  end.

(** [data.get(key, default)] *)
Definition dict_get {A} (entry : option A) (default : A) : A :=
  match entry with
  | Some v => v
  | None => default
  end.

(** [Fiber.to_dict] *)
Definition Fiber_to_dict (f : Fiber.t) : FiberDict.t :=
  FiberDict.mk (Some (Fiber.id f)) (Some (Fiber.y f)) (Some (Fiber.z f))
    (Some (Fiber.area f)) (Some (Fiber.material_id f)) (Some (Fiber.active f)).

(** [Fiber.from_dict] *)
Definition Fiber_from_dict (data : FiberDict.t) : exn + Fiber.t :=
  match dict_item (FiberDict.id data) with
  | inl e => inl e
  | inr fiber_id =>
  match dict_item (FiberDict.y data) with
  | inl e => inl e
  | inr y =>
  match dict_item (FiberDict.z data) with
  | inl e => inl e
  | inr z =>
  match dict_item (FiberDict.area data) with
  | inl e => inl e
  | inr area =>
  match dict_item (FiberDict.material_id data) with
  | inl e => inl e
  | inr material_id =>
      let fiber := Fiber.new fiber_id y z area material_id in
      inr (Fiber_set_active (dict_get (FiberDict.active data) true) fiber)
  end end end end end.

(** The dictionary of [Mesh.to_dict] and [Mesh.from_dict]. *)
Module MeshDict.

Record t := mk {
  id : option Z;
  nodes : option (list point);
  elements : option (list (list nat));
  element_materials : option (list Z);
  fibers : option (list FiberDict.t);
}.

End MeshDict.

(** [Mesh.to_dict] *)
Definition Mesh_to_dict (m : Mesh.t) : MeshDict.t :=
  MeshDict.mk (Some (Mesh.id m)) (Some (Mesh.nodes m)) (Some (Mesh.elements m))
    (Some (Mesh.element_materials m)) (Some (Fiber_to_dict <$> Mesh.fibers m)).

(** [[Fiber.from_dict(fiber_data) for fiber_data in data['fibers']]] *)
Fixpoint fibers_from_dicts (fibers_data : list FiberDict.t)
  : exn + list Fiber.t :=
  match fibers_data with
  | [] => inr []
  | fiber_data :: fibers_data =>
      match Fiber_from_dict fiber_data with
      | inl e => inl e
      | inr fiber =>
          match fibers_from_dicts fibers_data with
          | inl e => inl e
          | inr fibers => inr (fiber :: fibers)
          end
      end
  end.

(** [Mesh.from_dict] *)
Definition Mesh_from_dict (data : MeshDict.t) : exn + Mesh.t :=
  match dict_item (MeshDict.id data) with
  | inl e => inl e
  | inr mesh_id =>
  match dict_item (MeshDict.nodes data) with
  | inl e => inl e
  | inr nodes =>
  match dict_item (MeshDict.elements data) with
  | inl e => inl e
  | inr elements =>
  match dict_item (MeshDict.element_materials data) with
  | inl e => inl e
  | inr element_materials =>
  match dict_item (MeshDict.fibers data) with
  | inl e => inl e
  | inr fibers_data =>
      match fibers_from_dicts fibers_data with
      | inl e => inl e
      | inr fibers =>
          inr (Mesh.mk mesh_id nodes elements element_materials fibers)
      end
  end end end end end.

(** ** The remaining methods of data/data_manager.py *)




(** [SectionData.get_shapes] *)
Definition SectionData_get_shapes (s : SectionData.t) : list Shape.t :=
  SectionData.shapes s.





(** [max(section.id for section in self.sections)] on a non-empty list. *)
Definition max_section_id (first : SectionData.t) (rest : list SectionData.t)
  : Z :=
  fold_left (λ best s, if Z.ltb best (SectionData.id s)
                       then SectionData.id s else best)
    rest (SectionData.id first).

(** [DataManager.__init__] with [_init_default_section] *)
Definition DataManager_new : DataManager.t :=
  DataManager.mk [SectionData.new 1 "Section 1"] (Some 1) ∅ [] [].

(** [DataManager.create_section] *)
Definition DataManager_create_section (name : string) (dm : DataManager.t)
  : SectionData.t * DataManager.t :=
  let new_id :=
    match DataManager.sections dm with
    | [] => 1
    | first :: rest => max_section_id first rest + 1
    end in
  let section := SectionData.new new_id name in
  (section,
   DataManager.mk (DataManager.sections dm ++ [section]) (Some new_id)
     (DataManager.meshes dm) (DataManager.undo_stack dm)
     (DataManager.redo_stack dm)).

(** [DataManager.get_current_section]: an id that is [None] or [0] is
    falsy. *)
Definition DataManager_get_current_section (dm : DataManager.t)
  : option SectionData.t :=
  match DataManager.current_section_id dm with
  | None => None
  | Some 0 => None
  | Some section_id => DataManager.get_section_by_id section_id dm
  end.

(** [DataManager.set_current_section] *)
Definition DataManager_set_current_section (section_id : Z)
    (dm : DataManager.t) : bool * DataManager.t :=
  match DataManager.get_section_by_id section_id dm with
  | Some _ =>
      (true,
       DataManager.mk (DataManager.sections dm) (Some section_id)
         (DataManager.meshes dm) (DataManager.undo_stack dm)
         (DataManager.redo_stack dm))
  | None => (false, dm)
  end.

(** The loop of [delete_section]: the list without the first section with
    that id, or [None] when there is none. *)
Fixpoint delete_first_section (section_id : Z) (ss : list SectionData.t)
  : option (list SectionData.t) :=
  match ss with
  | [] => None
  | s :: ss =>
      if bool_decide (SectionData.id s = section_id) then Some ss
      else cons s <$> delete_first_section section_id ss
  end.

(** [DataManager.delete_section] *)
Definition DataManager_delete_section (section_id : Z) (dm : DataManager.t)
  : bool * DataManager.t :=
  match delete_first_section section_id (DataManager.sections dm) with
  | None => (false, dm)
  | Some sections =>
      let current :=
        if bool_decide (DataManager.current_section_id dm = Some section_id)
        then match sections with
             | first :: _ => Some (SectionData.id first)
             | [] => None
             end
        else DataManager.current_section_id dm in
      (true,
       DataManager.mk sections current (DataManager.meshes dm)
         (DataManager.undo_stack dm) (DataManager.redo_stack dm))
  end.

(** [DataManager.get_sections] *)
Definition DataManager_get_sections (dm : DataManager.t)
  : list SectionData.t :=
  DataManager.sections dm.

(** The ids of the sections are pairwise distinct. *)
Definition unique_section_ids (dm : DataManager.t) : Prop :=
  NoDup (SectionData.id <$> DataManager.sections dm).

(** The current section id, when there is one, is the id of a section. *)
Definition current_section_exists (dm : DataManager.t) : Prop :=
  match DataManager.current_section_id dm with
  | Some section_id => is_Some (DataManager.get_section_by_id section_id dm)
  | None => True
  end.

(** The shape of a mesh the generator builds: triangles and
    quadrilaterals only, and one material per element. *)
Definition Mesh_well_shaped (m : Mesh.t) : Prop :=
  Forall (λ element, length element = 3%nat ∨ length element = 4%nat)
    (Mesh.elements m)
  ∧ length (Mesh.element_materials m) = length (Mesh.elements m).

(** ** Stand-ins for the external libraries

    Concrete instances of the two interfaces, used to run the code on
    examples.  [BoxShapely] treats every geometry as the axis-aligned box
    of its shell, which is exact for unrotated rectangles. *)

Fixpoint shell_of (g : Geometry) : list point :=
  match g with
  | Polygon shell => shell
  | Rotate g _ _ => shell_of g
  end.

Definition box_of (coords : list point) : Q * Q * Q * Q :=
  match coords with
  | [] => (0, 0, 0, 0)%Q
  | (y, z) :: coords =>
      fold_left (λ '(a, b, c, d) '(y, z),
                   (Py.min a y, Py.min b z, Py.max c y, Py.max d z))
        coords (y, z, y, z)
  end.

Definition Qltb (a b : Q) : bool := negb (Qle_bool b a).

Definition box_contains (g : Geometry) (p : point) : bool :=
  let '(a, b, c, d) := box_of (shell_of g) in
  Qltb a p.1 && Qltb p.1 c && Qltb b p.2 && Qltb p.2 d.

Definition box_touches (g : Geometry) (p : point) : bool :=
  let '(a, b, c, d) := box_of (shell_of g) in
  Qle_bool a p.1 && Qle_bool p.1 c && Qle_bool b p.2 && Qle_bool p.2 d
  && negb (box_contains g p).

Definition box_area (coords : list point) : Q :=
  let '(a, b, c, d) := box_of coords in Qred ((c - a) * (d - b)).

Definition box_centroid (coords : list point) : point :=
  let '(a, b, c, d) := box_of coords in
  (Qred ((a + c) / 2), Qred ((b + d) / 2)).

Definition BoxShapely : Shapely := {|
  contains := box_contains;
  touches := box_touches;
  bounds g := box_of (shell_of g);
  exterior_coords := shell_of;
  interiors_coords _ := [];
  polygon_area := box_area;
  polygon_centroid := box_centroid;
|}.

(** A triangulation that splits a quadrilateral along a diagonal, whatever
    the size asked for. *)
Definition DiagonalTri : TriEngine := {|
  create_mesh geometries _ :=
    match geometries with
    | (exterior, _) :: _ =>
        Some {| mesh_vertices := (λ p : point, [p.1; p.2]) <$> exterior;
                mesh_triangles := [[0; 1; 2]; [0; 2; 3]]%nat |}
    | [] => None
    end;
|}.

(** A triangulation that always raises. *)
Definition FailingTri : TriEngine := {| create_mesh _ _ := None |}.

(** ** The rules of the specification, in its own words

    The material rule of the fiber discretization: the first shape of the
    list that is active and contains the point gives its material id when
    it has one, and the material is 1 in every other case. *)
Definition spec_material `{Shapely} (shapes : list Shape.t) (p : point) : Z :=
  match List.find (λ shape, Shape.active shape
                            && contains (Shape.geometry shape) p) shapes with
  | Some shape => default 1 (Shape.material_id shape)
  | None => 1
  end.



(** The quadrilateral grid of the specification, over the bounding box
    [(min_y, min_z, max_y, max_z)] of a shape: the number of cells along an
    extent, the node of row [i] and column [j], the four nodes of the cell
    [(i, j)] and the number of its corners inside or touching the shape. *)
Definition spec_grid_count (extent mesh_size : Q) : nat :=
  Z.to_nat (Z.max 2 (Qfloor (extent / mesh_size))).


Definition spec_cell_nodes (nY i j : nat) : list nat :=
  [ i * (nY + 1) + j; i * (nY + 1) + (j + 1);
    (i + 1) * (nY + 1) + (j + 1); (i + 1) * (nY + 1) + j ]%nat.



(** ** Example data *)

Definition with_mesh_type (mesh_type : string) (s : Shape.t) : Shape.t :=
  Shape.mk (Shape.id s) (Shape.material_id s) (Shape.vertices s)
    (Shape.geometry s) (Shape.active s) (Shape.mesh_size s) mesh_type.

Definition with_mesh_size (mesh_size : Py.val) (s : Shape.t) : Shape.t :=
  Shape.mk (Shape.id s) (Shape.material_id s) (Shape.vertices s)
    (Shape.geometry s) (Shape.active s) mesh_size (Shape.mesh_type s).

Definition with_active (active : bool) (s : Shape.t) : Shape.t :=
  Shape.mk (Shape.id s) (Shape.material_id s) (Shape.vertices s)
    (Shape.geometry s) active (Shape.mesh_size s) (Shape.mesh_type s).

Definition with_material (material_id : option Z) (s : Shape.t) : Shape.t :=
  Shape.mk (Shape.id s) material_id (Shape.vertices s)
    (Shape.geometry s) (Shape.active s) (Shape.mesh_size s) (Shape.mesh_type s).

(** The rectangle of the scenario: centre (0,0), width 2, height 2. *)
Definition square2 : Shape.t := Rectangle 1 0 0 2 2 0.

Definition quad_square2 : Shape.t := with_mesh_type "quadrilateral" square2.

(** A mesh of one quadrilateral over [square2] that holds one fiber. *)
Definition old_mesh_example : Mesh.t :=
  Mesh.mk 1 [(-1, -1)%Q; (1, -1)%Q; (1, 1)%Q; (-1, 1)%Q] [[0; 1; 2; 3]%nat] [1]
    [Fiber.new 1 0 0 4 1].

(** A mesh of two triangles over [square2], without fibers yet. *)
Definition new_mesh_example : Mesh.t :=
  Mesh.mk 2 [(-1, -1)%Q; (1, -1)%Q; (1, 1)%Q; (-1, 1)%Q]
    [[0; 1; 2]%nat; [0; 2; 3]%nat] [1; 1] [].

(** A section that holds [old_mesh_example] (at reference 0), its fiber
    and one manually placed fiber; [new_mesh_example] is at reference 1. *)
Definition section_example : SectionData.t :=
  SectionData.mk 1 "Section 1" [square2] (Some 0%nat)
    [Fiber.new 1 0 0 4 1; Fiber.new 2000 (1 # 2) (1 # 2) (1 # 100) 2] 0.

Definition dm_example : DataManager.t :=
  DataManager.mk [section_example] (Some 1)
    (<[1%nat := new_mesh_example]> (<[0%nat := old_mesh_example]> ∅)) [] [].

(** [quad_square2] with its own mesh size 1, an inactive copy of
    [square2], and two overlapping squares with materials 7 and 9. *)
Definition quad_square2_size1 : Shape.t :=
  with_mesh_size (PyFloat 1) quad_square2.

Definition inactive_square2 : Shape.t := with_active false square2.

Definition inner_square : Shape.t := with_material (Some 7) square2.

Definition outer_square : Shape.t :=
  with_material (Some 9) (Rectangle 2 0 0 4 4 0).

(** More example data: a mesh with an element that refers to a node it
    does not have, a section without mesh and fibers, a manager that holds
    it with three meshes in the store, a manager whose section has two
    shapes, and quadrilateral squares with a zero and a negative size. *)
Definition bad_mesh_example : Mesh.t :=
  Mesh.mk 3 [(-1, -1)%Q; (1, -1)%Q; (1, 1)%Q; (-1, 1)%Q]
    [[0; 1; 2]%nat; [0; 2; 7]%nat] [1; 1] [].



Definition two_shapes_section_example : SectionData.t :=
  SectionData.mk 1 "Section 1" [square2; outer_square] None [] 0.

Definition dm_two_shapes_example : DataManager.t :=
  DataManager.mk [two_shapes_section_example] (Some 1) ∅ [] [].


Definition quad_square2_negative : Shape.t :=
  with_mesh_size (PyFloat (-1)) quad_square2.


(** * Properties *)

(** ** Polygon construction *)




(** ** Mesh sizes *)

Section MeshSize.
Context `{Shapely} `{TriEngine}.

Lemma shape_mesh_size_attr (shape : Shape.t) (global_mesh_size : Py.val) :
  MeshGenerator.shape_mesh_size shape global_mesh_size = Shape.mesh_size shape.
Proof. reflexivity. Qed.

Lemma generate_shape_mesh_global (shape : Shape.t) (g g' : Py.val) (cur : Z) :
  MeshGenerator.generate_shape_mesh shape g cur =
  MeshGenerator.generate_shape_mesh shape g' cur.
Proof. reflexivity. Qed.

Lemma mesh_shapes_global (shapes : list Shape.t) (g g' : Py.val) :
  ∀ merged cur,
    MeshGenerator.mesh_shapes shapes g merged cur =
    MeshGenerator.mesh_shapes shapes g' merged cur.
Proof.
  induction shapes as [|shape shapes IH]; intros merged cur; [reflexivity|].
  cbn [MeshGenerator.mesh_shapes].
  rewrite (generate_shape_mesh_global shape g g').
  destruct (Shape.active shape); [|apply IH].
  destruct (MeshGenerator.generate_shape_mesh shape g' cur) as [[sm|] cur'|];
    [|apply IH|reflexivity].
  destruct (MeshGenerator.merge_shape_mesh shape sm merged); [apply IH|reflexivity].
Qed.

(** The global mesh size never reaches a strategy. *)
Lemma generate_mesh_global (shapes : list Shape.t) (g g' : Py.val) (cur : Z) :
  MeshGenerator.generate_mesh shapes g cur =
  MeshGenerator.generate_mesh shapes g' cur.
Proof.
  destruct shapes as [|shape shapes]; [reflexivity|].
  unfold MeshGenerator.generate_mesh.
  now rewrite (mesh_shapes_global (shape :: shapes) g g').
Qed.

(** C2 (what the code does): for a shape whose [mesh_size] is not set,
    both strategies work with the default 0.1 whatever the global mesh
    size is, and the whole generation is the one a global size of 0.1
    would give. *)
Theorem unset_mesh_size_uses_default (shape : Shape.t)
    (shapes : list Shape.t) (global_mesh_size : Py.val) (cur : Z) :
  Shape.mesh_size shape = PyNone →
  MeshGenerator.effective_mesh_size shape global_mesh_size = (1 # 10)%Q
  ∧ MeshGenerator.generate_mesh (shape :: shapes) global_mesh_size cur =
    MeshGenerator.generate_mesh (shape :: shapes) (PyFloat (1 # 10)) cur.
Proof.
  intros Hunset. split.
  - unfold MeshGenerator.effective_mesh_size.
    rewrite shape_mesh_size_attr, Hunset. reflexivity.
  - apply generate_mesh_global.
Qed.

(** A mesh size that is set is the one used, and a value [float()]
    rejects falls back to 0.1. *)
Lemma effective_mesh_size_set (shape : Shape.t) (g : Py.val) (q : Q) :
  Shape.mesh_size shape = PyFloat q →
  MeshGenerator.effective_mesh_size shape g = q.
Proof.
  intros Hset. unfold MeshGenerator.effective_mesh_size.
  now rewrite shape_mesh_size_attr, Hset.
Qed.

Lemma effective_mesh_size_non_numeric (shape : Shape.t) (g : Py.val) :
  Shape.mesh_size shape = PyNonNumeric →
  MeshGenerator.effective_mesh_size shape g = (1 # 10)%Q.
Proof.
  intros Hset. unfold MeshGenerator.effective_mesh_size.
  now rewrite shape_mesh_size_attr, Hset.
Qed.

End MeshSize.

(** ** Null and empty meshes *)

Section EmptyMesh.
Context `{Shapely} `{TriEngine}.

Lemma mesh_shapes_all_fail (shapes : list Shape.t) (g : Py.val) :
  (∀ shape cur0, shape ∈ shapes → Shape.active shape = true →
     ∃ cur1, MeshGenerator.generate_shape_mesh shape g cur0 = Ok None cur1) →
  ∀ merged cur,
    ∃ cur', MeshGenerator.mesh_shapes shapes g merged cur = Ok merged cur'.
Proof.
  induction shapes as [|shape shapes IH]; intros Hfail merged cur.
  - exists cur. reflexivity.
  - cbn [MeshGenerator.mesh_shapes].
    assert (Hrest : ∀ s c, s ∈ shapes → Shape.active s = true →
              ∃ c1, MeshGenerator.generate_shape_mesh s g c = Ok None c1).
    { intros s c Hin. apply Hfail. now right. }
    destruct (Shape.active shape) eqn:Hact; [|now apply IH].
    destruct (Hfail shape cur ltac:(left) Hact) as [cur1 ->].
    now apply IH.
Qed.

(** C5 (as the code has it): [generate_mesh] returns [None] exactly when
    the shape list it is given is empty; the list is not filtered before
    that test.  For a non-empty list in which no active shape yields a
    mesh it returns a mesh with no node and no element. *)
Theorem generate_mesh_none_iff_no_shape (shapes : list Shape.t)
    (g : Py.val) (cur : Z) :
  ((∃ cur', MeshGenerator.generate_mesh shapes g cur = Ok None cur')
     ↔ shapes = [])
  ∧ (shapes ≠ [] →
     (∀ shape cur0, shape ∈ shapes → Shape.active shape = true →
        ∃ cur1, MeshGenerator.generate_shape_mesh shape g cur0 = Ok None cur1) →
     ∃ m cur', MeshGenerator.generate_mesh shapes g cur = Ok (Some m) cur'
               ∧ Mesh.nodes m = [] ∧ Mesh.elements m = []).
Proof.
  split; [split|].
  - intros [cur' Hnone]. destruct shapes as [|shape shapes]; [reflexivity|].
    unfold MeshGenerator.generate_mesh in Hnone.
    destruct (MeshGenerator.mesh_shapes _ _ _ _); discriminate Hnone.
  - intros ->. exists cur. reflexivity.
  - intros Hne Hfail. destruct shapes as [|shape shapes]; [done|].
    unfold MeshGenerator.generate_mesh.
    destruct (mesh_shapes_all_fail (shape :: shapes) g Hfail
                (Mesh.new cur) (cur + 1)) as [cur' ->].
    exists (Mesh.new cur), cur'. done.
Qed.

End EmptyMesh.

(** ** Fiber discretization *)

Section Fibers.
Context `{Shapely}.



Lemma resolve_material_spec (shapes : list Shape.t) (p : point) :
  Mesh.resolve_material shapes p 1 = spec_material shapes p.
Proof.
  unfold spec_material.
  induction shapes as [|shape shapes IH]; [reflexivity|].
  cbn [Mesh.resolve_material List.find]. unfold Shape.is_active.
  destruct (Shape.active shape && contains (Shape.geometry shape) p).
  - now destruct (Shape.material_id shape).
  - apply IH.
Qed.





Lemma fibers_loop_material (shapes : list Shape.t) :
  ∀ els k m m',
    Mesh.fibers_loop shapes els k m = Ok tt m' →
    ∃ fs, Mesh.fibers m' = Mesh.fibers m ++ fs
          ∧ Forall (λ f, Fiber.material_id f
                         = spec_material shapes (Fiber.y f, Fiber.z f)) fs.
Proof.
  induction els as [|element els IH]; intros k m m' Hrun.
  - cbn in Hrun. simplify_eq. exists []. now rewrite app_nil_r.
  - cbn [Mesh.fibers_loop] in Hrun.
    destruct (Mesh.node_coords (Mesh.nodes m) element) as [coords|];
      [|discriminate Hrun].
    destruct (polygon_centroid coords) as [y z].
    apply IH in Hrun as (fs & Hfs & Hmat).
    cbn [Mesh.fibers Mesh.with_fibers] in Hfs.
    eexists (_ :: fs). rewrite Hfs, <- app_assoc. split; [reflexivity|].
    constructor; [|exact Hmat]. apply resolve_material_spec.
Qed.

(** C7: every fiber [generate_fibers] returns carries the material of
    the first shape of the list, in list order, that is active and
    contains the fiber's position (the centroid of its element): that
    shape's material id when it is set and 1 when it is not; and 1 when
    no shape qualifies. *)
Theorem fiber_material_first_containing (shapes : list Shape.t)
    (m m' : Mesh.t) (fs : list Fiber.t) :
  Mesh.generate_fibers shapes m = Ok fs m' →
  Forall (λ f, Fiber.material_id f
               = spec_material shapes (Fiber.y f, Fiber.z f)) fs.
Proof.
  unfold Mesh.generate_fibers. intros Hgen.
  destruct (Mesh.fibers_loop _ _ _ _) as [[] m1|] eqn:Hloop; [|discriminate].
  simplify_eq. apply fibers_loop_material in Hloop as (fs & -> & Hmat).
  exact Hmat.
Qed.

(** In an overlap the first-listed shape wins. *)
Lemma spec_material_overlap (first second : Shape.t)
    (shapes : list Shape.t) (p : point) :
  Shape.active first = true → contains (Shape.geometry first) p = true →
  spec_material (first :: second :: shapes) p
  = default 1 (Shape.material_id first).
Proof.
  intros Hactive Hin. unfold spec_material. cbn [List.find].
  now rewrite Hactive, Hin.
Qed.

End Fibers.

(** ** Reconciliation, undo and redo *)

Section Commands.
Context `{Shapely}.



Lemma find_update_first (sid : Z) (f : SectionData.t → SectionData.t)
    (ss : list SectionData.t) :
  (∀ s, SectionData.id (f s) = SectionData.id s) →
  List.find (λ s, bool_decide (SectionData.id s = sid))
    (DataManager.update_first sid f ss)
  = f <$> List.find (λ s, bool_decide (SectionData.id s = sid)) ss.
Proof.
  intros Hid. induction ss as [|s ss IH]; [reflexivity|].
  cbn [DataManager.update_first List.find].
  destruct (bool_decide (SectionData.id s = sid)) eqn:Hs; cbn [List.find].
  - now rewrite Hid, Hs.
  - now rewrite Hs.
Qed.

Lemma update_first_compose (sid : Z) (f g : SectionData.t → SectionData.t)
    (ss : list SectionData.t) :
  (∀ s, SectionData.id (g s) = SectionData.id s) →
  DataManager.update_first sid f (DataManager.update_first sid g ss)
  = DataManager.update_first sid (λ s, f (g s)) ss.
Proof.
  intros Hid. induction ss as [|s ss IH]; [reflexivity|].
  cbn [DataManager.update_first].
  destruct (bool_decide (SectionData.id s = sid)) eqn:Hs;
    cbn [DataManager.update_first].
  - now rewrite Hid, Hs.
  - now rewrite Hs, IH.
Qed.

Lemma update_first_fixed (sid : Z) (f : SectionData.t → SectionData.t)
    (ss : list SectionData.t) (section : SectionData.t) :
  List.find (λ s, bool_decide (SectionData.id s = sid)) ss = Some section →
  f section = section →
  DataManager.update_first sid f ss = ss.
Proof.
  intros Hfind Hf. induction ss as [|s ss IH]; [reflexivity|].
  cbn [DataManager.update_first List.find] in *.
  destruct (bool_decide (SectionData.id s = sid)).
  - simplify_eq. now rewrite Hf.
  - now rewrite IH.
Qed.

Lemma pop_snoc {A} (l : list A) (x : A) :
  DataManager.pop (l ++ [x]) = Some (x, l).
Proof. unfold DataManager.pop. now rewrite last_snoc, removelast_last. Qed.


Lemma get_section_update_first (sid : Z) (f : SectionData.t → SectionData.t)
    (ss : list SectionData.t) (c : option Z) (ms : gmap mesh_ref Mesh.t)
    (us rs : list Operation) (section : SectionData.t) :
  (∀ s, SectionData.id (f s) = SectionData.id s) →
  List.find (λ s, bool_decide (SectionData.id s = sid)) ss = Some section →
  DataManager.get_section_by_id sid
    (DataManager.mk (DataManager.update_first sid f ss) c ms us rs)
  = Some (f section).
Proof.
  intros Hid Hfind. unfold DataManager.get_section_by_id.
  cbn [DataManager.sections]. now rewrite find_update_first, Hfind.
Qed.




(** With no new mesh [execute] still reconciles the fibers, which leaves
    the existing ones, and then raises on its last assignment. *)
Lemma execute_without_mesh_raises (sid : Z) (om : option mesh_ref)
    (old : option (list Fiber.t)) (dm : DataManager.t)
    (section : SectionData.t) :
  DataManager.get_section_by_id sid dm = Some section →
  ∃ dm',
    DataManager.execute (OperationGenerateMesh sid om None old) dm
      = Raise AttributeError dm'
    ∧ DataManager.get_section_by_id sid dm'
      = Some (SectionData.set_fibers (SectionData.fibers section)
                (SectionData.set_mesh None section)).
Proof.
  intros Hsection. cbn [DataManager.execute].
  unfold DataManager.execute_generate_mesh. rewrite Hsection.
  eexists. split; [reflexivity|].
  unfold DataManager.update_section, DataManager.with_sections.
  cbn [DataManager.sections].
  rewrite update_first_compose by done.
  rewrite (get_section_update_first _ _ _ _ _ _ _ section)
    by (done || exact Hsection).
  unfold DataManager.merge_fibers. cbn [DataManager.append_new].
  reflexivity.
Qed.




End Commands.

(** ** Index validity of generated meshes *)

Section IndexValidity.
Context `{Shapely} `{TriEngine}.

Lemma merge_nodes_spec (shape_nodes : list point) :
  ∀ old_node_id merged mapping,
    (∀ o n, mapping !! o = Some n → (n < length (Mesh.nodes merged))%nat) →
    ∀ merged' mapping',
      MeshGenerator.merge_nodes shape_nodes old_node_id merged mapping
        = (merged', mapping') →
      Mesh.elements merged' = Mesh.elements merged
      ∧ (length (Mesh.nodes merged) ≤ length (Mesh.nodes merged'))%nat
      ∧ ∀ o n, mapping' !! o = Some n → (n < length (Mesh.nodes merged'))%nat.
Proof.
  induction shape_nodes as [|[y z] shape_nodes IH];
    intros old_node_id merged mapping Hmapping merged' mapping' Hrun.
  - cbn in Hrun. simplify_eq. auto.
  - cbn [MeshGenerator.merge_nodes Mesh.add_node] in Hrun.
    apply IH in Hrun as (Hels & Hlen & Hvalues).
    + cbn [Mesh.elements Mesh.nodes] in *. rewrite length_app in Hlen.
      cbn in Hlen. split; [exact Hels|]. split; [lia|exact Hvalues].
    + intros o n. cbn [Mesh.nodes]. rewrite length_app. cbn [length].
      rewrite lookup_insert. case_decide.
      * intros [= <-]. lia.
      * intros Hn. apply Hmapping in Hn. lia.
Qed.

Lemma map_element_valid (mapping : gmap nat nat) (bound : nat)
    (element mapped : list nat) :
  (∀ o n, mapping !! o = Some n → (n < bound)%nat) →
  MeshGenerator.map_element mapping element = Some mapped →
  Forall (λ n, (n < bound)%nat) mapped.
Proof.
  intros Hmapping Hmapped. unfold MeshGenerator.map_element in Hmapped.
  apply mapM_Some in Hmapped.
  induction Hmapped as [|o n element mapped Hon _ IH]; constructor; eauto.
Qed.

Lemma merge_elements_valid (shape_elements : list (list nat))
    (mapping : gmap nat nat) (material_id : Z) :
  ∀ merged merged',
    (∀ o n, mapping !! o = Some n → (n < length (Mesh.nodes merged))%nat) →
    Mesh.indices_valid merged →
    MeshGenerator.merge_elements shape_elements mapping material_id merged
      = Some merged' →
    Mesh.indices_valid merged'.
Proof.
  induction shape_elements as [|element shape_elements IH];
    intros merged merged' Hmapping Hvalid Hrun.
  - cbn in Hrun. now simplify_eq.
  - cbn [MeshGenerator.merge_elements] in Hrun.
    destruct (MeshGenerator.map_element mapping element) as [mapped|] eqn:Hmapped;
      [|discriminate Hrun].
    cbn [mbind option_bind] in Hrun. apply IH in Hrun; [exact Hrun|exact Hmapping|].
    unfold Mesh.indices_valid in *. cbn [Mesh.add_element fst Mesh.elements Mesh.nodes].
    apply Forall_app. split; [exact Hvalid|].
    constructor; [|constructor].
    exact (map_element_valid _ _ _ _ Hmapping Hmapped).
Qed.

Lemma indices_valid_more_nodes (m m' : Mesh.t) :
  Mesh.elements m' = Mesh.elements m →
  (length (Mesh.nodes m) ≤ length (Mesh.nodes m'))%nat →
  Mesh.indices_valid m → Mesh.indices_valid m'.
Proof.
  unfold Mesh.indices_valid. intros -> Hlen Hvalid.
  eapply Forall_impl; [exact Hvalid|]. intros element Helement.
  eapply Forall_impl; [exact Helement|]. intros n Hn. cbn in *. lia.
Qed.

Lemma merge_shape_mesh_valid (shape : Shape.t) (shape_mesh merged merged' : Mesh.t) :
  Mesh.indices_valid merged →
  MeshGenerator.merge_shape_mesh shape shape_mesh merged = Some merged' →
  Mesh.indices_valid merged'.
Proof.
  intros Hvalid. unfold MeshGenerator.merge_shape_mesh.
  destruct (MeshGenerator.merge_nodes (Mesh.nodes shape_mesh) 0 merged ∅)
    as [merged1 mapping] eqn:Hnodes.
  apply merge_nodes_spec in Hnodes as (Hels & Hlen & Hvalues);
    [|intros o n; now rewrite lookup_empty].
  intros Hrun. eapply merge_elements_valid; [exact Hvalues| |exact Hrun].
  now apply (indices_valid_more_nodes merged).
Qed.

Lemma mesh_shapes_valid (shapes : list Shape.t) (g : Py.val) :
  ∀ merged cur merged' cur',
    Mesh.indices_valid merged →
    MeshGenerator.mesh_shapes shapes g merged cur = Ok merged' cur' →
    Mesh.indices_valid merged'.
Proof.
  induction shapes as [|shape shapes IH]; intros merged cur merged' cur' Hvalid Hrun.
  - cbn in Hrun. now simplify_eq.
  - cbn [MeshGenerator.mesh_shapes] in Hrun.
    destruct (Shape.active shape); [|exact (IH _ _ _ _ Hvalid Hrun)].
    destruct (MeshGenerator.generate_shape_mesh shape g cur)
      as [[shape_mesh|] cur1|];
      [|exact (IH _ _ _ _ Hvalid Hrun)|discriminate Hrun].
    destruct (MeshGenerator.merge_shape_mesh shape shape_mesh merged)
      as [merged1|] eqn:Hmerge; [|discriminate Hrun].
    eapply IH; [|exact Hrun].
    exact (merge_shape_mesh_valid _ _ _ _ Hvalid Hmerge).
Qed.

(** C10: in every mesh [generate_mesh] returns, whatever the strategies
    that produced its parts, each node index of each element is smaller
    than the number of nodes. *)
Theorem generate_mesh_indices_valid (shapes : list Shape.t) (g : Py.val)
    (cur cur' : Z) (m : Mesh.t) :
  MeshGenerator.generate_mesh shapes g cur = Ok (Some m) cur' →
  Forall (Forall (λ n, (n < length (Mesh.nodes m))%nat)) (Mesh.elements m).
Proof.
  unfold MeshGenerator.generate_mesh.
  destruct shapes as [|shape shapes]; [discriminate|].
  destruct (MeshGenerator.mesh_shapes _ _ _ _) as [merged cur1|] eqn:Hrun;
    [|discriminate].
  intros [= <- <-].
  eapply mesh_shapes_valid; [|exact Hrun].
  unfold Mesh.indices_valid. cbn. constructor.
Qed.

End IndexValidity.

(** ** The quadrilateral grid *)

Lemma max_2_int_floor (q : Q) : Z.max 2 (Py.int q) = Z.max 2 (Qfloor q).
Proof.
  destruct q as [n d]. unfold Py.int, Qfloor. cbn [Qnum Qden].
  destruct (Z_lt_le_dec n 0) as [Hneg|Hpos].
  - assert (n ÷ Z.pos d ≤ 0).
    { rewrite <- (Z.opp_involutive n), Z.quot_opp_l by lia.
      pose proof (Z.quot_pos (- n) (Z.pos d)). lia. }
    assert (n / Z.pos d < 0) by (apply Z.div_lt_upper_bound; lia).
    lia.
  - now rewrite Z.quot_div_nonneg by lia.
Qed.

Lemma concat_uniform_length {A} (f : nat → list A) (w : nat) :
  (∀ i, length (f i) = w) →
  ∀ h, length (concat (map f (seq 0 h))) = (h * w)%nat.
Proof.
  intros Hf. induction h as [|h IH]; [reflexivity|].
  rewrite seq_S, map_app, concat_app, length_app, IH. cbn.
  rewrite app_nil_r, Hf. lia.
Qed.

Lemma concat_uniform_lookup {A} (f : nat → list A) (w : nat) :
  (∀ i, length (f i) = w) →
  ∀ h i j, (i < h)%nat → (j < w)%nat →
    concat (map f (seq 0 h)) !! (i * w + j)%nat = f i !! j.
Proof.
  intros Hf. induction h as [|h IH]; intros i j Hi Hj; [lia|].
  rewrite seq_S, map_app, concat_app. cbn [map concat Nat.add].
  rewrite app_nil_r.
  pose proof (concat_uniform_length f w Hf h) as Hlen.
  destruct (decide (i = h)) as [->|Hne].
  - rewrite lookup_app_r by lia. f_equal. lia.
  - rewrite lookup_app_l by nia. apply IH; lia.
Qed.

Section QuadGrid.
Context `{Shapely}.
Variables (min_y min_z width height : Q) (nY nZ : nat).

(** The node the code computes for row [i] and column [j]. *)
Let node (i j : nat) : point :=
  ((min_y + inject_Z (Z.of_nat j) * width / inject_Z (Z.of_nat nY))%Q,
   (min_z + inject_Z (Z.of_nat i) * height / inject_Z (Z.of_nat nZ))%Q).

Lemma quad_node_row_spec (i : nat) :
  ∀ js mesh row,
    MeshGenerator.quad_node_row js i min_y min_z width height
      (Z.of_nat nY) (Z.of_nat nZ) mesh row
    = (Mesh.mk (Mesh.id mesh) (Mesh.nodes mesh ++ map (node i) js)
         (Mesh.elements mesh) (Mesh.element_materials mesh) (Mesh.fibers mesh),
       row ++ seq (length (Mesh.nodes mesh)) (length js)).
Proof.
  induction js as [|j js IH]; intros mesh row.
  - cbn. rewrite !app_nil_r. now destruct mesh.
  - cbn [MeshGenerator.quad_node_row Mesh.add_node]. rewrite IH.
    cbn [Mesh.id Mesh.nodes Mesh.elements Mesh.element_materials Mesh.fibers
         map length seq].
    rewrite <- !app_assoc. cbn [app]. rewrite length_app. cbn [length].
    replace (length (Mesh.nodes mesh) + 1 - 1)%nat
      with (length (Mesh.nodes mesh)) by lia.
    replace (length (Mesh.nodes mesh) + 1)%nat
      with (S (length (Mesh.nodes mesh))) by lia.
    reflexivity.
Qed.

Lemma quad_node_rows_spec :
  ∀ rows mesh grid,
    MeshGenerator.quad_node_rows rows min_y min_z width height
      (Z.of_nat nY) (Z.of_nat nZ) mesh grid
    = (Mesh.mk (Mesh.id mesh)
         (Mesh.nodes mesh
          ++ concat (map (λ i, map (node i) (seq 0 (nY + 1))) rows))
         (Mesh.elements mesh) (Mesh.element_materials mesh) (Mesh.fibers mesh),
       grid
       ++ map (λ t, seq (length (Mesh.nodes mesh) + t * (nY + 1)) (nY + 1))
            (seq 0 (length rows))).
Proof.
  induction rows as [|i rows IH]; intros mesh grid.
  - cbn. rewrite !app_nil_r. now destruct mesh.
  - cbn [MeshGenerator.quad_node_rows].
    replace (Z.to_nat (Z.of_nat nY + 1)) with (nY + 1)%nat by lia.
    rewrite quad_node_row_spec, IH.
    cbn [Mesh.id Mesh.nodes Mesh.elements Mesh.element_materials Mesh.fibers
         map length seq concat app].
    rewrite <- !app_assoc. cbn [app].
    rewrite length_app, length_map, length_seq.
    do 3 f_equal.
    + f_equal. lia.
    + rewrite <- seq_shift, map_map. apply map_ext. intros t. f_equal. lia.
Qed.

End QuadGrid.

Section QuadCells.
Context `{Shapely}.
Variables (min_y min_z width height : Q) (nY nZ : nat).
Variable active_shapes : list Shape.t.

Let node (i j : nat) : point :=
  ((min_y + inject_Z (Z.of_nat j) * width / inject_Z (Z.of_nat nY))%Q,
   (min_z + inject_Z (Z.of_nat i) * height / inject_Z (Z.of_nat nZ))%Q).

(** The node grid and the node list the generation loops leave. *)
Let grid : list (list nat) :=
  map (λ t, seq (t * (nY + 1)) (nY + 1)) (seq 0 (nZ + 1)).
Let grid_nodes : list point :=
  concat (map (λ i, map (node i) (seq 0 (nY + 1))) (seq 0 (nZ + 1))).

(** The corners of the cell [(i, j)] that pass the test. *)
Let count (i j : nat) : nat :=
  length (List.filter (MeshGenerator.corner_inside active_shapes)
            [node i j; node i (j + 1)%nat;
             node (i + 1)%nat (j + 1)%nat; node (i + 1)%nat j]).

Lemma grid_at_spec (i j : nat) :
  (i ≤ nZ)%nat → (j ≤ nY)%nat →
  MeshGenerator.grid_at grid i j = Some (i * (nY + 1) + j)%nat.
Proof.
  intros Hi Hj. unfold MeshGenerator.grid_at, grid.
  change (map ?f ?l) with (f <$> l).
  rewrite list_lookup_fmap, lookup_seq_lt by lia. cbn.
  now rewrite lookup_seq_lt by lia.
Qed.

Lemma grid_nodes_length : length grid_nodes = ((nZ + 1) * (nY + 1))%nat.
Proof.
  unfold grid_nodes. apply concat_uniform_length.
  intros i. now rewrite length_map, length_seq.
Qed.

Lemma grid_nodes_lookup (i j : nat) :
  (i ≤ nZ)%nat → (j ≤ nY)%nat →
  grid_nodes !! (i * (nY + 1) + j)%nat = Some (node i j).
Proof.
  intros Hi Hj. unfold grid_nodes.
  rewrite (concat_uniform_lookup _ (nY + 1)); [| |lia|lia].
  - change (map ?f ?l) with (f <$> l).
    now rewrite list_lookup_fmap, lookup_seq_lt by lia.
  - intros t. now rewrite length_map, length_seq.
Qed.

Lemma inside_count_filter (points : list point) :
  ∀ c, MeshGenerator.inside_count active_shapes points c
       = (c + length (List.filter
                        (MeshGenerator.corner_inside active_shapes) points))%nat.
Proof.
  induction points as [|p points IH]; intros c; cbn; [lia|].
  rewrite IH. destruct (MeshGenerator.corner_inside active_shapes p); cbn; lia.
Qed.

Lemma quad_cell_spec (i j : nat) (mesh : Mesh.t) :
  (i < nZ)%nat → (j < nY)%nat → Mesh.nodes mesh = grid_nodes →
  MeshGenerator.quad_cell grid active_shapes i j mesh
  = Some (if decide (3 ≤ count i j)%nat
          then (Mesh.add_element mesh (spec_cell_nodes nY i j) 1).1
          else mesh).
Proof.
  intros Hi Hj Hnodes. unfold MeshGenerator.quad_cell.
  rewrite !grid_at_spec by lia. cbn [mbind option_bind].
  rewrite Hnodes, !grid_nodes_lookup by lia. cbn [mbind option_bind].
  rewrite inside_count_filter. cbn [Nat.add]. unfold count.
  now destruct (decide _).
Qed.

Lemma quad_cell_row_spec (i : nat) :
  (i < nZ)%nat →
  ∀ js, Forall (λ j, (j < nY)%nat) js →
  ∀ mesh, Mesh.nodes mesh = grid_nodes →
    ∃ mesh',
      MeshGenerator.quad_cell_row js i grid active_shapes mesh = Some mesh'
      ∧ Mesh.nodes mesh' = grid_nodes
      ∧ Mesh.elements mesh'
        = Mesh.elements mesh
          ++ map (spec_cell_nodes nY i)
               (filter (λ j, (3 ≤ count i j)%nat) js).
Proof.
  intros Hi. induction 1 as [|j js Hj _ IH]; intros mesh Hnodes.
  - exists mesh. cbn. now rewrite app_nil_r.
  - cbn [MeshGenerator.quad_cell_row].
    rewrite quad_cell_spec by assumption. cbn [mbind option_bind].
    rewrite filter_cons. destruct (decide (3 ≤ count i j)%nat).
    + destruct (IH (Mesh.add_element mesh (spec_cell_nodes nY i j) 1).1)
        as (mesh' & Hrun & Hnodes' & Hels); [exact Hnodes|].
      exists mesh'. split; [exact Hrun|]. split; [exact Hnodes'|].
      rewrite Hels. cbn [Mesh.add_element fst Mesh.elements map].
      now rewrite <- app_assoc.
    + exact (IH mesh Hnodes).
Qed.

Lemma quad_cell_rows_spec :
  ∀ rows, Forall (λ i, (i < nZ)%nat) rows →
  ∀ mesh, Mesh.nodes mesh = grid_nodes →
    ∃ mesh',
      MeshGenerator.quad_cell_rows rows (Z.of_nat nY) grid active_shapes mesh
        = Some mesh'
      ∧ Mesh.nodes mesh' = grid_nodes
      ∧ Mesh.elements mesh'
        = Mesh.elements mesh
          ++ concat
               (map (λ i, map (spec_cell_nodes nY i)
                            (filter (λ j, (3 ≤ count i j)%nat) (seq 0 nY)))
                  rows).
Proof.
  induction 1 as [|i rows Hi _ IH]; intros mesh Hnodes.
  - exists mesh. cbn. now rewrite app_nil_r.
  - cbn [MeshGenerator.quad_cell_rows]. rewrite Nat2Z.id.
    destruct (quad_cell_row_spec i Hi (seq 0 nY)) with (mesh := mesh)
      as (mesh1 & Hrow & Hnodes1 & Hels1); [|exact Hnodes|].
    { apply Forall_forall. intros j Hj. apply elem_of_seq in Hj. lia. }
    rewrite Hrow. cbn [mbind option_bind].
    destruct (IH mesh1 Hnodes1) as (mesh' & Hrun & Hnodes' & Hels).
    exists mesh'. split; [exact Hrun|]. split; [exact Hnodes'|].
    rewrite Hels, Hels1. cbn [map concat]. now rewrite <- app_assoc.
Qed.

End QuadCells.

Section QuadStrategy.
Context `{Shapely} `{TriEngine}.




End QuadStrategy.

(** * The code on the example data *)

Lemma new_mesh_example_valid : Mesh.indices_valid new_mesh_example.
Proof.
  unfold Mesh.indices_valid, new_mesh_example. cbn.
  repeat constructor; lia.
Defined.

Lemma PolygonShape_one_vertex :
  Shape.geometry (PolygonShape 1 (Some [(0, 0)%Q])) = Polygon [].
Proof. reflexivity. Qed.

(** The scenario of the specification: the 2 by 2 square with its own
    mesh size 1 gives 9 nodes and 4 quadrilaterals. *)
Example quad_scenario_own_size :
  match @MeshGenerator.generate_mesh BoxShapely DiagonalTri
          [quad_square2_size1] (PyFloat 1) 1 with
  | Ok (Some m) _ =>
      (map (λ p : point, (Qred p.1, Qred p.2)) (Mesh.nodes m), Mesh.elements m)
  | _ => ([], [])
  end
  = ([(-1, -1)%Q; (0, -1)%Q; (1, -1)%Q;
      (-1, 0)%Q; (0, 0)%Q; (1, 0)%Q;
      (-1, 1)%Q; (0, 1)%Q; (1, 1)%Q],
     [[0; 1; 4; 3]; [1; 2; 5; 4]; [3; 4; 7; 6]; [4; 5; 8; 7]]%nat).
Proof. vm_compute. reflexivity. Qed.

(** C2 (the defect at work): the same square with no mesh size of its
    own and a global mesh size of 1 is meshed with 0.1, which gives 441
    nodes and 400 quadrilaterals where a size of 1 gives 9 and 4. *)
Example quad_scenario_global_size_ignored :
  match @MeshGenerator.generate_mesh BoxShapely DiagonalTri
          [quad_square2] (PyFloat 1) 1 with
  | Ok (Some m) _ => (length (Mesh.nodes m), length (Mesh.elements m))
  | _ => (0, 0)%nat
  end = (441, 400)%nat.
Proof. vm_compute. reflexivity. Qed.

Lemma unset_mesh_size_uses_default_witness :
  Shape.mesh_size quad_square2 = PyNone
  ∧ @MeshGenerator.effective_mesh_size quad_square2 (PyFloat 1) = (1 # 10)%Q
  ∧ @MeshGenerator.generate_mesh BoxShapely DiagonalTri
      [quad_square2] (PyFloat 1) 1
    = @MeshGenerator.generate_mesh BoxShapely DiagonalTri
        [quad_square2] (PyFloat (1 # 10)) 1.
Proof.
  split; [reflexivity|].
  apply (@unset_mesh_size_uses_default BoxShapely DiagonalTri
           quad_square2 [] (PyFloat 1) 1).
  reflexivity.
Defined.

(** C5 (counterexample): a list that holds only an inactive shape has no
    active shape, and [generate_mesh] returns an empty mesh for it, not
    [None]. *)
Lemma inactive_shapes_give_a_mesh :
  ¬ (∀ (shapes : list Shape.t) (g : Py.val) (cur : Z),
       (∃ cur', @MeshGenerator.generate_mesh BoxShapely DiagonalTri
                  shapes g cur = Ok None cur')
       ↔ filter (λ shape, Shape.active shape = true) shapes = []).
Proof.
  intros Hclaim.
  destruct (proj2 (Hclaim [inactive_square2] (PyFloat 1) 1) eq_refl)
    as [cur' Hnone].
  vm_compute in Hnone. discriminate Hnone.
Qed.

Lemma generate_mesh_none_iff_no_shape_witness :
  [inactive_square2; square2] ≠ []
  ∧ (∀ shape cur0, shape ∈ [inactive_square2; square2] →
       Shape.active shape = true →
       ∃ cur1, @MeshGenerator.generate_shape_mesh BoxShapely FailingTri
                 shape (PyFloat 1) cur0 = Ok None cur1)
  ∧ ∃ m cur',
      @MeshGenerator.generate_mesh BoxShapely FailingTri
        [inactive_square2; square2] (PyFloat 1) 1 = Ok (Some m) cur'
      ∧ Mesh.nodes m = [] ∧ Mesh.elements m = [].
Proof.
  assert (Hfail : ∀ shape cur0, shape ∈ [inactive_square2; square2] →
            Shape.active shape = true →
            ∃ cur1, @MeshGenerator.generate_shape_mesh BoxShapely FailingTri
                      shape (PyFloat 1) cur0 = Ok None cur1).
  { intros shape cur0 Hin Hactive.
    apply list_elem_of_In in Hin. destruct Hin as [<-|[<-|[]]].
    - discriminate Hactive.
    - exists cur0. reflexivity. }
  split; [discriminate|]. split; [exact Hfail|].
  apply (proj2 (@generate_mesh_none_iff_no_shape BoxShapely FailingTri
                  [inactive_square2; square2] (PyFloat 1) 1));
    [discriminate|exact Hfail].
Defined.


Lemma fiber_material_first_containing_witness :
  ∃ fs m',
    @Mesh.generate_fibers BoxShapely [inner_square; outer_square]
      new_mesh_example = Ok fs m'
    ∧ Forall (λ f, Fiber.material_id f
                   = @spec_material BoxShapely [inner_square; outer_square]
                       (Fiber.y f, Fiber.z f)) fs
    ∧ Fiber.material_id <$> fs = [7; 7].
Proof.
  eexists. eexists. split; [vm_compute; reflexivity|]. split.
  - eapply (@fiber_material_first_containing BoxShapely
              [inner_square; outer_square] new_mesh_example).
    vm_compute. reflexivity.
  - reflexivity.
Defined.

(** The example P5 of the specification: on a collision the existing
    fiber stays and the new one is dropped. *)
Example merge_keeps_existing :
  DataManager.merge_fibers
    [Fiber.new 5 0 0 1 1]
    [Fiber.new 5 (1 # 2) (1 # 2) 1 1; Fiber.new 6 1 1 1 1]
  = [Fiber.new 5 0 0 1 1; Fiber.new 6 1 1 1 1].
Proof. vm_compute. reflexivity. Qed.

Lemma dm_example_section :
  DataManager.get_section_by_id 1 dm_example = Some section_example.
Proof. reflexivity. Defined.








Lemma generate_mesh_indices_valid_witness :
  ∃ m cur',
    @MeshGenerator.generate_mesh BoxShapely DiagonalTri
      [square2; quad_square2_size1] (PyFloat 1) 1 = Ok (Some m) cur'
    ∧ length (Mesh.nodes m) = 13%nat
    ∧ Mesh.elements m
      = [[0; 1; 2]; [0; 2; 3]; [4; 5; 8; 7]; [5; 6; 9; 8];
         [7; 8; 11; 10]; [8; 9; 12; 11]]%nat
    ∧ Forall (Forall (λ n, (n < length (Mesh.nodes m))%nat)) (Mesh.elements m).
Proof.
  eexists. eexists. split; [vm_compute; reflexivity|].
  split; [reflexivity|]. split; [reflexivity|].
  eapply (@generate_mesh_indices_valid BoxShapely DiagonalTri
            [square2; quad_square2_size1] (PyFloat 1) 1).
  vm_compute. reflexivity.
Defined.

(** * Further properties of the code *)

(** ** Fiber lookup and the dictionaries *)


Section FiberLookup.
Context `{Shapely}.


End FiberLookup.

Lemma Fiber_round_trip (f : Fiber.t) : Fiber_from_dict (Fiber_to_dict f) = inr f.
Proof. now destruct f. Qed.

(** X2: [Fiber.from_dict] succeeds exactly when the five keys [id], [y],
    [z], [area] and [material_id] are present, and raises [KeyError]
    otherwise; a missing [active] key is no error and makes the fiber
    active. *)
Theorem Fiber_from_dict_keys (data : FiberDict.t) :
  match Fiber_from_dict data with
  | inr f =>
      FiberDict.id data = Some (Fiber.id f)
      ∧ FiberDict.y data = Some (Fiber.y f)
      ∧ FiberDict.z data = Some (Fiber.z f)
      ∧ FiberDict.area data = Some (Fiber.area f)
      ∧ FiberDict.material_id data = Some (Fiber.material_id f)
      ∧ Fiber.active f = default true (FiberDict.active data)
  | inl e =>
      e = KeyError
      ∧ (FiberDict.id data = None ∨ FiberDict.y data = None
         ∨ FiberDict.z data = None ∨ FiberDict.area data = None
         ∨ FiberDict.material_id data = None)
  end.
Proof.
  destruct data as [[i|] [y|] [z|] [a|] [mat|] [act|]]; cbn; auto 10.
Qed.


Lemma fibers_round_trip (fs : list Fiber.t) :
  fibers_from_dicts (Fiber_to_dict <$> fs) = inr fs.
Proof.
  induction fs as [|f fs IH]; [reflexivity|].
  cbn [fmap list_fmap fibers_from_dicts].
  change (list_fmap _ _ Fiber_to_dict fs) with (Fiber_to_dict <$> fs).
  now rewrite Fiber_round_trip, IH.
Qed.

(** X3: reading back the dictionary a mesh writes gives the mesh again:
    id, nodes, elements, element materials and every fiber with its
    [active] flag. *)
Theorem Mesh_dict_round_trip (m : Mesh.t) :
  Mesh_from_dict (Mesh_to_dict m) = inr m.
Proof.
  unfold Mesh_from_dict, Mesh_to_dict. cbn [dict_item MeshDict.id
    MeshDict.nodes MeshDict.elements MeshDict.element_materials MeshDict.fibers].
  rewrite fibers_round_trip. now destruct m.
Qed.


(** ** Merging the meshes of the shapes *)

Lemma merge_nodes_exact (shape_nodes : list point) :
  ∀ start merged mapping,
    ∃ mapping',
      MeshGenerator.merge_nodes shape_nodes start merged mapping
      = (Mesh.mk (Mesh.id merged) (Mesh.nodes merged ++ shape_nodes)
           (Mesh.elements merged) (Mesh.element_materials merged)
           (Mesh.fibers merged), mapping')
      ∧ (∀ k, (k < length shape_nodes)%nat →
           mapping' !! (start + k)%nat
           = Some (length (Mesh.nodes merged) + k)%nat)
      ∧ (∀ o, (o < start ∨ start + length shape_nodes ≤ o)%nat →
           mapping' !! o = mapping !! o).
Proof.
  induction shape_nodes as [|[y z] shape_nodes IH]; intros start merged mapping.
  - exists mapping. cbn. rewrite app_nil_r. split; [now destruct merged|].
    split; [intros k Hk; lia|reflexivity].
  - cbn [MeshGenerator.merge_nodes Mesh.add_node Mesh.nodes].
    destruct (IH (S start)
                (Mesh.mk (Mesh.id merged) (Mesh.nodes merged ++ [(y, z)])
                   (Mesh.elements merged) (Mesh.element_materials merged)
                   (Mesh.fibers merged))
                (<[start := (length (Mesh.nodes merged ++ [(y, z)]) - 1)%nat]>
                   mapping))
      as (mapping' & Hrun & Hnew & Hold).
    exists mapping'. rewrite Hrun.
    cbn [Mesh.id Mesh.nodes Mesh.elements Mesh.element_materials Mesh.fibers]
      in *.
    rewrite length_app in *. cbn [length] in *.
    split; [now rewrite <- app_assoc|]. split.
    + intros [|k] Hk.
      * rewrite Hold by lia. rewrite Nat.add_0_r, lookup_insert_eq.
        f_equal. lia.
      * replace (start + S k)%nat with (S start + k)%nat by lia.
        rewrite Hnew by lia. f_equal. lia.
    + intros o Ho. rewrite Hold by lia. apply lookup_insert_ne. lia.
Qed.

Lemma map_element_exact (mapping : gmap nat nat) (n offset : nat)
    (element : list nat) :
  (∀ k, (k < n)%nat → mapping !! k = Some (offset + k)%nat) →
  Forall (λ k, (k < n)%nat) element →
  MeshGenerator.map_element mapping element
  = Some (map (λ k, (offset + k)%nat) element).
Proof.
  intros Hmapping Helement. unfold MeshGenerator.map_element.
  apply mapM_Some. induction Helement as [|k element Hk _ IH]; cbn.
  - constructor.
  - constructor; [now apply Hmapping|exact IH].
Qed.

Lemma map_element_missing (mapping : gmap nat nat) (n : nat)
    (element : list nat) :
  (∀ k, (n ≤ k)%nat → mapping !! k = None) →
  ¬ Forall (λ k, (k < n)%nat) element →
  MeshGenerator.map_element mapping element = None.
Proof.
  intros Hmapping Helement. unfold MeshGenerator.map_element.
  destruct (mapM (λ old_id, mapping !! old_id) element) as [mapped|] eqn:Hmap;
    [|reflexivity].
  exfalso. apply Helement.
  assert (Hsome : is_Some (mapM (λ old_id, mapping !! old_id) element))
    by (rewrite Hmap; eauto).
  apply mapM_is_Some in Hsome.
  eapply Forall_impl; [exact Hsome|]. intros k [v Hk]. cbn in Hk.
  destruct (decide (k < n)%nat); [assumption|].
  rewrite Hmapping in Hk by lia. discriminate.
Qed.

Lemma merge_elements_exact (mapping : gmap nat nat) (n offset : nat)
    (material_id : Z) (shape_elements : list (list nat)) :
  (∀ k, (k < n)%nat → mapping !! k = Some (offset + k)%nat) →
  Forall (Forall (λ k, (k < n)%nat)) shape_elements →
  ∀ merged,
    MeshGenerator.merge_elements shape_elements mapping material_id merged
    = Some (Mesh.mk (Mesh.id merged) (Mesh.nodes merged)
              (Mesh.elements merged
               ++ map (map (λ k, (offset + k)%nat)) shape_elements)
              (Mesh.element_materials merged
               ++ replicate (length shape_elements) material_id)
              (Mesh.fibers merged)).
Proof.
  intros Hmapping. induction 1 as [|element els Helement _ IH]; intros merged.
  - cbn. rewrite !app_nil_r. now destruct merged.
  - cbn [MeshGenerator.merge_elements].
    rewrite (map_element_exact mapping n offset) by assumption.
    cbn [mbind option_bind]. rewrite IH.
    cbn [Mesh.add_element fst Mesh.id Mesh.nodes Mesh.elements
         Mesh.element_materials Mesh.fibers map length replicate].
    now rewrite <- !app_assoc.
Qed.

Lemma merge_elements_missing (mapping : gmap nat nat) (n : nat)
    (material_id : Z) (shape_elements : list (list nat)) :
  (∀ k, (n ≤ k)%nat → mapping !! k = None) →
  ¬ Forall (Forall (λ k, (k < n)%nat)) shape_elements →
  ∀ merged,
    MeshGenerator.merge_elements shape_elements mapping material_id merged
    = None.
Proof.
  intros Hmapping. induction shape_elements as [|element els IH];
    intros Hinvalid merged.
  - exfalso. apply Hinvalid. constructor.
  - cbn [MeshGenerator.merge_elements].
    destruct (decide (Forall (λ k, (k < n)%nat) element)) as [Hok|Hbad].
    + destruct (MeshGenerator.map_element mapping element); [|reflexivity].
      cbn [mbind option_bind]. apply IH. intros Hels. apply Hinvalid.
      now constructor.
    + now rewrite (map_element_missing mapping n).
Qed.

(** X5: merging the mesh of a shape appends its nodes as they are, without
    looking for nodes that are already there, appends its elements with
    every index shifted by the number of nodes the merged mesh had, and
    records [shape.material_id or 1] once per element. *)
Theorem merge_shape_mesh_appends (shape : Shape.t)
    (shape_mesh merged : Mesh.t) :
  Mesh.indices_valid shape_mesh →
  MeshGenerator.merge_shape_mesh shape shape_mesh merged
  = Some (Mesh.mk (Mesh.id merged)
            (Mesh.nodes merged ++ Mesh.nodes shape_mesh)
            (Mesh.elements merged
             ++ map (map (λ k, (length (Mesh.nodes merged) + k)%nat))
                  (Mesh.elements shape_mesh))
            (Mesh.element_materials merged
             ++ replicate (length (Mesh.elements shape_mesh))
                  (Py.or_1 (Shape.material_id shape)))
            (Mesh.fibers merged)).
Proof.
  intros Hvalid. unfold MeshGenerator.merge_shape_mesh.
  destruct (merge_nodes_exact (Mesh.nodes shape_mesh) 0 merged ∅)
    as (mapping & -> & Hnew & _).
  rewrite (merge_elements_exact mapping (length (Mesh.nodes shape_mesh))
             (length (Mesh.nodes merged)));
    [reflexivity|exact Hnew|exact Hvalid].
Qed.

(** X6: the merge raises [KeyError] exactly when an element of the shape's
    mesh refers to a node the shape's mesh does not have. *)
Theorem merge_shape_mesh_key_error (shape : Shape.t)
    (shape_mesh merged : Mesh.t) :
  MeshGenerator.merge_shape_mesh shape shape_mesh merged = None
  ↔ ¬ Mesh.indices_valid shape_mesh.
Proof.
  unfold MeshGenerator.merge_shape_mesh.
  destruct (merge_nodes_exact (Mesh.nodes shape_mesh) 0 merged ∅)
    as (mapping & -> & Hnew & Hold).
  split.
  - intros Hnone Hvalid.
    rewrite (merge_elements_exact mapping (length (Mesh.nodes shape_mesh))
               (length (Mesh.nodes merged))) in Hnone;
      [discriminate|exact Hnew|exact Hvalid].
  - intros Hinvalid.
    apply (merge_elements_missing mapping (length (Mesh.nodes shape_mesh)));
      [|exact Hinvalid].
    intros k Hk. rewrite Hold by lia. apply lookup_empty.
Qed.

(** ** The shape of generated meshes *)

Section GeneratedShape.
Context `{Shapely} `{TriEngine}.

Lemma tri_add_nodes_elements (vertices : list (list Q)) :
  ∀ mesh,
    Mesh.elements (MeshGenerator.tri_add_nodes vertices mesh)
      = Mesh.elements mesh
    ∧ Mesh.element_materials (MeshGenerator.tri_add_nodes vertices mesh)
      = Mesh.element_materials mesh.
Proof.
  induction vertices as [|vertex vertices IH]; intros mesh; [done|].
  cbn [MeshGenerator.tri_add_nodes].
  destruct vertex as [|x [|y rest]]; try apply IH.
  destruct (IH (Mesh.add_node mesh y x).1) as [-> ->]. done.
Qed.

Lemma tri_add_elements_shaped (triangles : list (list nat)) :
  ∀ mesh, Mesh_well_shaped mesh →
    Mesh_well_shaped (MeshGenerator.tri_add_elements triangles mesh).
Proof.
  induction triangles as [|triangle triangles IH]; intros mesh Hmesh; [done|].
  cbn [MeshGenerator.tri_add_elements]. case_decide; [|now apply IH].
  apply IH. destruct Hmesh as [Harity Hlen]. split.
  - cbn [Mesh.add_element fst Mesh.elements]. apply Forall_app. split; [done|].
    constructor; [|constructor]. left. rewrite length_take. lia.
  - cbn [Mesh.add_element fst Mesh.elements Mesh.element_materials].
    rewrite !length_app. cbn. lia.
Qed.

Lemma quad_node_row_elements (js : list nat) (i : nat)
    (min_y min_z width height : Q) (num_y num_z : Z) :
  ∀ mesh row,
    Mesh.elements (MeshGenerator.quad_node_row js i min_y min_z width height
                     num_y num_z mesh row).1 = Mesh.elements mesh
    ∧ Mesh.element_materials
        (MeshGenerator.quad_node_row js i min_y min_z width height
           num_y num_z mesh row).1 = Mesh.element_materials mesh.
Proof.
  induction js as [|j js IH]; intros mesh row; [done|].
  cbn [MeshGenerator.quad_node_row Mesh.add_node].
  match goal with |- context [MeshGenerator.quad_node_row js i _ _ _ _ _ _ ?m ?r] =>
    destruct (IH m r) as [-> ->] end.
  done.
Qed.

Lemma quad_node_rows_elements (rows : list nat)
    (min_y min_z width height : Q) (num_y num_z : Z) :
  ∀ mesh grid,
    Mesh.elements (MeshGenerator.quad_node_rows rows min_y min_z width height
                     num_y num_z mesh grid).1 = Mesh.elements mesh
    ∧ Mesh.element_materials
        (MeshGenerator.quad_node_rows rows min_y min_z width height
           num_y num_z mesh grid).1 = Mesh.element_materials mesh.
Proof.
  induction rows as [|i rows IH]; intros mesh grid; [done|].
  cbn [MeshGenerator.quad_node_rows].
  pose proof (quad_node_row_elements (seq 0 (Z.to_nat (num_y + 1))) i
                min_y min_z width height num_y num_z mesh []) as Hrow.
  destruct (MeshGenerator.quad_node_row _ i _ _ _ _ _ _ mesh [])
    as [mesh1 row].
  cbn [fst] in Hrow. destruct Hrow as [<- <-]. apply IH.
Qed.

Lemma quad_cell_shaped (grid : list (list nat)) (shapes : list Shape.t)
    (i j : nat) (mesh mesh' : Mesh.t) :
  Mesh_well_shaped mesh →
  MeshGenerator.quad_cell grid shapes i j mesh = Some mesh' →
  Mesh_well_shaped mesh'.
Proof.
  intros [Harity Hlen]. unfold MeshGenerator.quad_cell. intros Hcell.
  repeat match type of Hcell with
         | (?o ≫= _) = Some _ =>
             destruct o; cbn [mbind option_bind] in Hcell; [|discriminate]
         end.
  case_decide; simplify_eq; [|done]. split.
  - cbn [Mesh.add_element fst Mesh.elements]. apply Forall_app. split; [done|].
    constructor; [now right|constructor].
  - cbn [Mesh.add_element fst Mesh.elements Mesh.element_materials].
    rewrite !length_app. cbn. lia.
Qed.

Lemma quad_cell_row_shaped (grid : list (list nat)) (shapes : list Shape.t)
    (i : nat) (js : list nat) :
  ∀ mesh mesh',
    Mesh_well_shaped mesh →
    MeshGenerator.quad_cell_row js i grid shapes mesh = Some mesh' →
    Mesh_well_shaped mesh'.
Proof.
  induction js as [|j js IH]; intros mesh mesh' Hmesh Hrun.
  - cbn in Hrun. now simplify_eq.
  - cbn [MeshGenerator.quad_cell_row] in Hrun.
    destruct (MeshGenerator.quad_cell grid shapes i j mesh) as [mesh1|] eqn:Hcell;
      [|discriminate].
    cbn [mbind option_bind] in Hrun.
    exact (IH _ _ (quad_cell_shaped _ _ _ _ _ _ Hmesh Hcell) Hrun).
Qed.

Lemma quad_cell_rows_shaped (grid : list (list nat)) (shapes : list Shape.t)
    (num_y : Z) (rows : list nat) :
  ∀ mesh mesh',
    Mesh_well_shaped mesh →
    MeshGenerator.quad_cell_rows rows num_y grid shapes mesh = Some mesh' →
    Mesh_well_shaped mesh'.
Proof.
  induction rows as [|i rows IH]; intros mesh mesh' Hmesh Hrun.
  - cbn in Hrun. now simplify_eq.
  - cbn [MeshGenerator.quad_cell_rows] in Hrun.
    destruct (MeshGenerator.quad_cell_row _ i grid shapes mesh)
      as [mesh1|] eqn:Hrow; [|discriminate].
    cbn [mbind option_bind] in Hrun.
    exact (IH _ _ (quad_cell_row_shaped _ _ _ _ _ _ Hmesh Hrow) Hrun).
Qed.

Lemma new_mesh_shaped (mesh_id : Z) : Mesh_well_shaped (Mesh.new mesh_id).
Proof. split; [constructor|reflexivity]. Qed.

Lemma generate_shape_mesh_shaped (shape : Shape.t) (g : Py.val)
    (cur cur' : Z) (shape_mesh : Mesh.t) :
  MeshGenerator.generate_shape_mesh shape g cur = Ok (Some shape_mesh) cur' →
  Mesh_well_shaped shape_mesh.
Proof.
  unfold MeshGenerator.generate_shape_mesh.
  destruct (String.eqb _ _).
  - unfold MeshGenerator._generate_quad_mesh.
    destruct (MeshGenerator.quad_bounding_box _ _) as [[[[a b] c] d]|];
      [|discriminate].
    destruct (Qeq_bool _ _); [discriminate|].
    match goal with |- context [MeshGenerator.quad_node_rows ?r ?a1 ?a2 ?a3 ?a4 ?ny ?nz ?m ?g0] =>
      pose proof (quad_node_rows_elements r a1 a2 a3 a4 ny nz m g0) as Hnodes;
      destruct (MeshGenerator.quad_node_rows r a1 a2 a3 a4 ny nz m g0)
        as [mesh1 grid] end.
    cbn [fst Mesh.new Mesh.elements Mesh.element_materials] in Hnodes.
    destruct (MeshGenerator.quad_cell_rows _ _ _ _ _) as [mesh2|] eqn:Hcells;
      [|discriminate].
    intros [= <- <-]. eapply quad_cell_rows_shaped; [|exact Hcells].
    destruct Hnodes as [Hels Hmats]. split; rewrite ?Hels, ?Hmats; [constructor|done].
  - unfold MeshGenerator._generate_tri_mesh.
    destruct (MeshGenerator.tri_geometries _); [discriminate|].
    destruct (create_mesh _ _) as [out|]; [|discriminate].
    intros [= <- <-]. apply tri_add_elements_shaped.
    destruct (tri_add_nodes_elements (mesh_vertices out) (Mesh.new cur))
      as [Hels Hmats].
    split; rewrite ?Hels, ?Hmats; [constructor|done].
Qed.

Lemma merge_shape_mesh_some (shape : Shape.t)
    (shape_mesh merged merged' : Mesh.t) :
  MeshGenerator.merge_shape_mesh shape shape_mesh merged = Some merged' →
  merged'
  = Mesh.mk (Mesh.id merged)
      (Mesh.nodes merged ++ Mesh.nodes shape_mesh)
      (Mesh.elements merged
       ++ map (map (λ k, (length (Mesh.nodes merged) + k)%nat))
            (Mesh.elements shape_mesh))
      (Mesh.element_materials merged
       ++ replicate (length (Mesh.elements shape_mesh))
            (Py.or_1 (Shape.material_id shape)))
      (Mesh.fibers merged).
Proof.
  intros Hmerge.
  destruct (decide (Mesh.indices_valid shape_mesh)) as [Hvalid|Hinvalid].
  - unfold MeshGenerator.merge_shape_mesh in *.
    destruct (merge_nodes_exact (Mesh.nodes shape_mesh) 0 merged ∅)
      as (mapping & Hnodes & Hnew & _).
    rewrite Hnodes in Hmerge.
    rewrite (merge_elements_exact mapping (length (Mesh.nodes shape_mesh))
               (length (Mesh.nodes merged))) in Hmerge;
      [now simplify_eq|exact Hnew|exact Hvalid].
  - unfold MeshGenerator.merge_shape_mesh in *.
    destruct (merge_nodes_exact (Mesh.nodes shape_mesh) 0 merged ∅)
      as (mapping & Hnodes & _ & Hold).
    rewrite Hnodes in Hmerge.
    rewrite (merge_elements_missing mapping (length (Mesh.nodes shape_mesh)))
      in Hmerge; [discriminate| |exact Hinvalid].
    intros k Hk. rewrite Hold by lia. apply lookup_empty.
Qed.

Lemma mesh_shapes_shaped (universe : list Shape.t) (g : Py.val) :
  ∀ shapes merged cur merged' cur',
    shapes ⊆ universe →
    Mesh_well_shaped merged →
    Forall (λ mat, ∃ shape, shape ∈ universe ∧ Shape.active shape = true
                            ∧ mat = Py.or_1 (Shape.material_id shape))
      (Mesh.element_materials merged) →
    MeshGenerator.mesh_shapes shapes g merged cur = Ok merged' cur' →
    Mesh_well_shaped merged'
    ∧ Forall (λ mat, ∃ shape, shape ∈ universe ∧ Shape.active shape = true
                              ∧ mat = Py.or_1 (Shape.material_id shape))
        (Mesh.element_materials merged').
Proof.
  induction shapes as [|shape shapes IH];
    intros merged cur merged' cur' Hsub Hshaped Hmats Hrun.
  - cbn in Hrun. now simplify_eq.
  - assert (Hsub' : shapes ⊆ universe)
      by (intros s Hs; apply Hsub; now right).
    assert (Hin : shape ∈ universe) by (apply Hsub; left).
    cbn [MeshGenerator.mesh_shapes] in Hrun.
    destruct (Shape.active shape) eqn:Hactive;
      [|exact (IH _ _ _ _ Hsub' Hshaped Hmats Hrun)].
    destruct (MeshGenerator.generate_shape_mesh shape g cur)
      as [[shape_mesh|] cur1|] eqn:Hgen;
      [|exact (IH _ _ _ _ Hsub' Hshaped Hmats Hrun)|discriminate].
    destruct (MeshGenerator.merge_shape_mesh shape shape_mesh merged)
      as [merged1|] eqn:Hmerge; [|discriminate].
    apply merge_shape_mesh_some in Hmerge. subst merged1.
    apply generate_shape_mesh_shaped in Hgen as [Harity Hlen].
    destruct Hshaped as [Harity0 Hlen0].
    eapply IH; [exact Hsub'| | |exact Hrun].
    + split; cbn [Mesh.elements Mesh.element_materials].
      * apply Forall_app. split; [exact Harity0|].
        apply Forall_forall. intros e He.
        apply list_elem_of_In, in_map_iff in He as (e0 & <- & He0).
        rewrite length_map.
        apply list_elem_of_In in He0.
        exact (proj1 (Forall_forall _ _) Harity e0 He0).
      * rewrite !length_app, length_replicate, length_map. lia.
    + cbn [Mesh.element_materials]. apply Forall_app. split; [exact Hmats|].
      apply Forall_replicate. eauto.
Qed.

(** X7: every mesh [generate_mesh] returns holds triangles and
    quadrilaterals only: each element has 3 or 4 node indices. *)
Theorem generate_mesh_element_arity (shapes : list Shape.t) (g : Py.val)
    (cur cur' : Z) (m : Mesh.t) :
  MeshGenerator.generate_mesh shapes g cur = Ok (Some m) cur' →
  Forall (λ element, length element = 3%nat ∨ length element = 4%nat)
    (Mesh.elements m).
Proof.
  unfold MeshGenerator.generate_mesh.
  destruct shapes as [|shape shapes]; [discriminate|].
  destruct (MeshGenerator.mesh_shapes _ _ _ _) as [merged cur1|] eqn:Hrun;
    [|discriminate].
  intros [= <- <-].
  eapply (mesh_shapes_shaped (shape :: shapes)) in Hrun as [[Harity _] _];
    [exact Harity|done|apply new_mesh_shaped|constructor].
Qed.

(** X8: in every mesh [generate_mesh] returns, [element_materials] runs
    parallel to [elements], and each entry is [shape.material_id or 1] of
    an active shape of the list, so it is never the material 0. *)
Theorem generate_mesh_element_materials (shapes : list Shape.t) (g : Py.val)
    (cur cur' : Z) (m : Mesh.t) :
  MeshGenerator.generate_mesh shapes g cur = Ok (Some m) cur' →
  length (Mesh.element_materials m) = length (Mesh.elements m)
  ∧ Forall (λ mat, mat ≠ 0
                   ∧ ∃ shape, shape ∈ shapes ∧ Shape.active shape = true
                              ∧ mat = Py.or_1 (Shape.material_id shape))
      (Mesh.element_materials m).
Proof.
  unfold MeshGenerator.generate_mesh.
  destruct shapes as [|shape shapes]; [discriminate|].
  destruct (MeshGenerator.mesh_shapes _ _ _ _) as [merged cur1|] eqn:Hrun;
    [|discriminate].
  intros [= <- <-].
  eapply (mesh_shapes_shaped (shape :: shapes)) in Hrun as [[_ Hlen] Hmats];
    [|done|apply new_mesh_shaped|constructor].
  split; [exact Hlen|].
  eapply Forall_impl; [exact Hmats|].
  intros mat (s & Hin & Hactive & ->). split; [|eauto].
  destruct (Shape.material_id s) as [[|p|p]|]; cbn; lia.
Qed.


(** X10: a shape that is not active, and a triangular shape whose
    triangulation fails, leave no trace: followed by other shapes, the
    generation returns what it returns for those shapes alone. *)
Theorem generate_mesh_skips_shape (shape : Shape.t) (shapes : list Shape.t)
    (g : Py.val) (cur : Z) :
  shapes ≠ [] →
  Shape.active shape = false
  ∨ (Shape.mesh_type shape ≠ "quadrilateral"
     ∧ create_mesh (MeshGenerator.tri_geometries [shape])
         (MeshGenerator.effective_mesh_size shape g) = None) →
  MeshGenerator.generate_mesh (shape :: shapes) g cur
  = MeshGenerator.generate_mesh shapes g cur.
Proof.
  intros Hne Hskip. destruct shapes as [|next shapes]; [done|].
  unfold MeshGenerator.generate_mesh.
  cbn [MeshGenerator.mesh_shapes].
  destruct (Shape.active shape) eqn:Hactive; [|reflexivity].
  destruct Hskip as [|[Htype Hfail]]; [discriminate|].
  unfold MeshGenerator.generate_shape_mesh at 1. cbn [Py.getattr].
  rewrite (proj2 (String.eqb_neq _ _) Htype).
  unfold MeshGenerator._generate_tri_mesh.
  fold (MeshGenerator.effective_mesh_size shape g). rewrite Hfail.
  now destruct (MeshGenerator.tri_geometries [shape]).
Qed.

End GeneratedShape.

(** ** Shape commands and their undo *)

Lemma remove_first_fresh (shape_id : Z) (shapes : list Shape.t) :
  Forall (λ s, Shape.id s ≠ shape_id) shapes →
  SectionData.remove_first shape_id shapes = shapes.
Proof.
  induction 1 as [|s shapes Hs _ IH]; [reflexivity|].
  cbn [SectionData.remove_first]. case_decide; [done|]. now rewrite IH.
Qed.

Lemma remove_first_app (shape_id : Z) (pre post : list Shape.t) :
  Forall (λ s, Shape.id s ≠ shape_id) pre →
  SectionData.remove_first shape_id (pre ++ post)
  = pre ++ SectionData.remove_first shape_id post.
Proof.
  induction 1 as [|s pre Hs _ IH]; [reflexivity|].
  cbn [app SectionData.remove_first]. case_decide; [done|]. now rewrite IH.
Qed.

Lemma find_shape_split (shape_id : Z) (shapes : list Shape.t) (shape : Shape.t) :
  List.find (λ s, bool_decide (Shape.id s = shape_id)) shapes = Some shape →
  ∃ pre post,
    shapes = pre ++ shape :: post
    ∧ Shape.id shape = shape_id
    ∧ Forall (λ s, Shape.id s ≠ shape_id) pre.
Proof.
  induction shapes as [|s shapes IH]; [discriminate|].
  cbn [List.find]. case_bool_decide as Hs.
  - intros [= <-]. exists [], shapes. done.
  - intros Hfind. destruct (IH Hfind) as (pre & post & -> & Hid & Hpre).
    exists (s :: pre), post. split; [reflexivity|]. split; [exact Hid|].
    now constructor.
Qed.

Section ShapeCommands.
Context `{Shapely}.

Lemma add_shape_state (sid : Z) (shape : Shape.t) (dm : DataManager.t) :
  DataManager.add_shape sid shape dm
  = Ok tt
      (DataManager.mk
         (DataManager.update_first sid (SectionData.add_shape shape)
            (DataManager.sections dm))
         (DataManager.current_section_id dm) (DataManager.meshes dm)
         (DataManager.undo_stack dm ++ [OperationAddShape sid shape]) []).
Proof. reflexivity. Qed.

Lemma undo_shape_command_state (op : Operation)
    (ss : list SectionData.t) (c : option Z) (ms : gmap mesh_ref Mesh.t)
    (us rs : list Operation) :
  DataManager.undo (DataManager.mk ss c ms (us ++ [op]) rs)
  = (true,
     let dm := DataManager.undo_operation op (DataManager.mk ss c ms us rs) in
     DataManager.mk (DataManager.sections dm)
       (DataManager.current_section_id dm) (DataManager.meshes dm)
       (DataManager.undo_stack dm) (DataManager.redo_stack dm ++ [op])).
Proof.
  unfold DataManager.undo. cbn [DataManager.undo_stack].
  rewrite pop_snoc. reflexivity.
Qed.

(** X11: [add_shape] followed by [undo] gives the section its shape list
    back, provided no shape of the section already has the id of the new
    shape; the command then waits on the redo stack. *)
Theorem add_shape_undo_restores (sid : Z) (shape : Shape.t)
    (dm : DataManager.t) (section : SectionData.t) :
  DataManager.get_section_by_id sid dm = Some section →
  Forall (λ s, Shape.id s ≠ Shape.id shape) (SectionData.shapes section) →
  ∃ dm1,
    DataManager.add_shape sid shape dm = Ok tt dm1
    ∧ SectionData.shapes <$> DataManager.get_section_by_id sid dm1
      = Some (SectionData.shapes section ++ [shape])
    ∧ DataManager.undo dm1
      = (true,
         DataManager.mk (DataManager.sections dm)
           (DataManager.current_section_id dm) (DataManager.meshes dm)
           (DataManager.undo_stack dm) [OperationAddShape sid shape]).
Proof.
  intros Hsection Hfresh. eexists. split; [apply add_shape_state|]. split.
  - rewrite (get_section_update_first _ _ _ _ _ _ _ section)
      by (done || exact Hsection).
    reflexivity.
  - rewrite undo_shape_command_state.
    cbn [DataManager.undo_operation DataManager.update_section
         DataManager.with_sections DataManager.sections
         DataManager.current_section_id DataManager.meshes
         DataManager.undo_stack DataManager.redo_stack app].
    rewrite update_first_compose by done.
    rewrite (update_first_fixed sid _ _ section Hsection); [reflexivity|].
    unfold SectionData.remove_shape, SectionData.add_shape.
    cbn [SectionData.shapes SectionData.id SectionData.name SectionData.mesh
         SectionData.fibers SectionData.GJ].
    rewrite remove_first_app by exact Hfresh.
    cbn [SectionData.remove_first]. rewrite decide_True by reflexivity.
    rewrite app_nil_r. now destruct section.
Qed.

(** X12: when a shape of the section already has the id of the shape that
    is added, [undo] removes the first shape with that id, which is the
    older one: the new shape stays and the older one is lost. *)
Theorem add_shape_undo_removes_older_shape (sid : Z) (shape older : Shape.t)
    (dm : DataManager.t) (section : SectionData.t) (pre post : list Shape.t) :
  DataManager.get_section_by_id sid dm = Some section →
  SectionData.shapes section = pre ++ older :: post →
  Shape.id older = Shape.id shape →
  Forall (λ s, Shape.id s ≠ Shape.id shape) pre →
  ∃ dm1 dm2,
    DataManager.add_shape sid shape dm = Ok tt dm1
    ∧ DataManager.undo dm1 = (true, dm2)
    ∧ SectionData.shapes <$> DataManager.get_section_by_id sid dm2
      = Some (pre ++ post ++ [shape]).
Proof.
  intros Hsection Hshapes Holder Hpre. eexists. eexists.
  split; [apply add_shape_state|].
  split; [apply undo_shape_command_state|].
  cbn [DataManager.undo_operation DataManager.update_section
       DataManager.with_sections DataManager.sections
       DataManager.current_section_id DataManager.meshes
       DataManager.undo_stack DataManager.redo_stack].
  rewrite update_first_compose by done.
  rewrite (get_section_update_first _ _ _ _ _ _ _ section)
    by (done || exact Hsection).
  cbn [fmap option_fmap option_map SectionData.shapes SectionData.remove_shape
       SectionData.add_shape].
  rewrite Hshapes, <- app_assoc, remove_first_app by exact Hpre.
  cbn [app SectionData.remove_first]. now rewrite decide_True.
Qed.

(** X13: [delete_shape] followed by [undo] puts the shape back at the end
    of the shape list: the section holds the same shapes as before, but
    the deleted one is now last, whatever its position was. *)
Theorem delete_shape_undo_moves_shape_last (sid shape_id : Z)
    (dm : DataManager.t) (section : SectionData.t) (shape : Shape.t) :
  DataManager.get_section_by_id sid dm = Some section →
  SectionData.get_shape_by_id shape_id section = Some shape →
  ∃ dm1 dm2 pre post,
    DataManager.delete_shape sid shape_id dm = Ok true dm1
    ∧ DataManager.undo dm1 = (true, dm2)
    ∧ SectionData.shapes section = pre ++ shape :: post
    ∧ SectionData.shapes <$> DataManager.get_section_by_id sid dm1
      = Some (pre ++ post)
    ∧ SectionData.shapes <$> DataManager.get_section_by_id sid dm2
      = Some (pre ++ post ++ [shape])
    ∧ pre ++ post ++ [shape] ≡ₚ SectionData.shapes section.
Proof.
  intros Hsection Hshape.
  destruct (find_shape_split shape_id _ shape Hshape)
    as (pre & post & Hshapes & Hid & Hpre).
  assert (Hremove : SectionData.remove_first (Shape.id shape)
                      (SectionData.shapes section) = pre ++ post).
  { rewrite Hshapes, Hid, remove_first_app by exact Hpre.
    cbn [SectionData.remove_first]. now rewrite decide_True. }
  eexists. eexists. exists pre, post. split.
  { unfold DataManager.delete_shape. rewrite Hsection, Hshape. reflexivity. }
  unfold DataManager.record_operation, DataManager.with_stacks,
    DataManager.update_section, DataManager.with_sections.
  cbn [DataManager.sections DataManager.current_section_id DataManager.meshes
       DataManager.undo_stack DataManager.redo_stack].
  split; [apply undo_shape_command_state|].
  split; [exact Hshapes|]. split; [|split].
  - rewrite (get_section_update_first _ _ _ _ _ _ _ section)
      by (done || exact Hsection).
    cbn [fmap option_fmap option_map SectionData.shapes
         SectionData.remove_shape].
    now rewrite Hremove.
  - cbn [DataManager.undo_operation DataManager.update_section
         DataManager.with_sections DataManager.sections
         DataManager.current_section_id DataManager.meshes
         DataManager.undo_stack DataManager.redo_stack].
    rewrite update_first_compose by done.
    rewrite (get_section_update_first _ _ _ _ _ _ _ section)
      by (done || exact Hsection).
    cbn [fmap option_fmap option_map SectionData.shapes
         SectionData.remove_shape SectionData.add_shape].
    now rewrite Hremove, <- app_assoc.
  - rewrite Hshapes. rewrite (Permutation_app_comm post [shape]).
    reflexivity.
Qed.

(** X14: [delete_shape] on a section or a shape id that does not exist
    returns [False] and changes nothing: no section, and neither stack. *)
Theorem delete_shape_unknown (sid shape_id : Z) (dm : DataManager.t) :
  (DataManager.get_section_by_id sid dm = None
   ∨ ∃ section, DataManager.get_section_by_id sid dm = Some section
                ∧ Forall (λ s, Shape.id s ≠ shape_id)
                    (SectionData.shapes section)) →
  DataManager.delete_shape sid shape_id dm = Ok false dm.
Proof.
  unfold DataManager.delete_shape.
  intros [->|(section & -> & Hnone)]; [reflexivity|].
  unfold SectionData.get_shape_by_id.
  destruct (List.find _ _) as [shape|] eqn:Hfind; [|reflexivity].
  apply find_shape_split in Hfind as (pre & post & Hshapes & Hid & _).
  rewrite Hshapes in Hnone. apply Forall_app in Hnone as [_ Hnone].
  now inversion Hnone.
Qed.

End ShapeCommands.

(** ** Sections *)

Lemma max_section_id_bounds (rest : list SectionData.t) :
  ∀ first,
    SectionData.id first ≤ max_section_id first rest
    ∧ Forall (λ s, SectionData.id s ≤ max_section_id first rest) rest.
Proof.
  unfold max_section_id.
  assert (Hfold : ∀ rest best,
            best ≤ fold_left (λ best s, if best <? SectionData.id s
                                        then SectionData.id s else best)
                     rest best
            ∧ Forall (λ s, SectionData.id s
                           ≤ fold_left (λ best s, if best <? SectionData.id s
                                                  then SectionData.id s
                                                  else best) rest best) rest).
  { clear rest. induction rest as [|s rest IH]; intros best; [done|].
    cbn [fold_left].
    destruct (IH (if best <? SectionData.id s then SectionData.id s else best))
      as [Hbest Hrest].
    destruct (Z.ltb_spec best (SectionData.id s)); split;
      try constructor; try done; lia. }
  intros first. apply Hfold.
Qed.

Lemma find_section_app_fresh (sid : Z) (ss : list SectionData.t)
    (s : SectionData.t) :
  List.find (λ s, bool_decide (SectionData.id s = sid)) (ss ++ [s])
  = match List.find (λ s, bool_decide (SectionData.id s = sid)) ss with
    | Some found => Some found
    | None => if bool_decide (SectionData.id s = sid) then Some s else None
    end.
Proof.
  induction ss as [|s0 ss IH]; cbn [app List.find]; [done|].
  now destruct (bool_decide (SectionData.id s0 = sid)).
Qed.

Lemma find_section_none (sid : Z) (ss : list SectionData.t) :
  sid ∉ (SectionData.id <$> ss) →
  List.find (λ s, bool_decide (SectionData.id s = sid)) ss = None.
Proof.
  induction ss as [|s ss IH]; [reflexivity|].
  cbn [fmap list_fmap List.find]. intros Hnotin.
  apply not_elem_of_cons in Hnotin as [Hne Hnotin].
  rewrite bool_decide_eq_false_2 by congruence. now apply IH.
Qed.

Lemma create_section_id_fresh (name : string) (dm : DataManager.t) :
  Forall (λ s, SectionData.id s
               < SectionData.id (DataManager_create_section name dm).1)
    (DataManager.sections dm).
Proof.
  unfold DataManager_create_section.
  destruct (DataManager.sections dm) as [|first rest]; [constructor|].
  cbn [fst SectionData.id SectionData.new].
  destruct (max_section_id_bounds rest first) as [Hfirst Hrest].
  constructor; [lia|].
  eapply Forall_impl; [exact Hrest|]. intros s Hs. cbn in Hs. lia.
Qed.

Lemma create_section_found (name : string) (dm : DataManager.t) :
  DataManager.get_section_by_id
    (SectionData.id (DataManager_create_section name dm).1)
    (DataManager_create_section name dm).2
  = Some (DataManager_create_section name dm).1.
Proof.
  pose proof (create_section_id_fresh name dm) as Hfresh.
  unfold DataManager.get_section_by_id.
  cbn [DataManager_create_section snd fst DataManager.sections] in *.
  rewrite find_section_app_fresh, find_section_none.
  - now rewrite bool_decide_eq_true_2.
  - intros Hin. apply list_elem_of_fmap in Hin as (s & Hid & Hs).
    apply (proj1 (Forall_forall _ _) Hfresh) in Hs. lia.
Qed.

(** X15: [create_section] gives the new section an id larger than the id
    of every existing section; the new section is empty, is the one
    [get_section_by_id] finds under that id, and becomes the current
    section, while every other lookup is unchanged. *)
Theorem create_section_fresh_id (name : string) (dm : DataManager.t) :
  let section := (DataManager_create_section name dm).1 in
  let dm' := (DataManager_create_section name dm).2 in
  Forall (λ s, SectionData.id s < SectionData.id section)
    (DataManager.sections dm)
  ∧ section = SectionData.new (SectionData.id section) name
  ∧ DataManager.get_section_by_id (SectionData.id section) dm' = Some section
  ∧ DataManager.current_section_id dm' = Some (SectionData.id section)
  ∧ ∀ sid, sid ≠ SectionData.id section →
      DataManager.get_section_by_id sid dm'
      = DataManager.get_section_by_id sid dm.
Proof.
  cbn zeta. split; [apply create_section_id_fresh|]. split; [reflexivity|].
  split; [apply create_section_found|]. split; [reflexivity|].
  unfold DataManager.get_section_by_id.
  cbn [DataManager_create_section snd fst DataManager.sections].
  intros sid Hsid. rewrite find_section_app_fresh.
  destruct (List.find _ (DataManager.sections dm)); [reflexivity|].
  now rewrite bool_decide_eq_false_2.
Qed.

Lemma delete_first_section_sublist (sid : Z) (ss ss' : list SectionData.t) :
  delete_first_section sid ss = Some ss' →
  ∃ pre s post,
    ss = pre ++ s :: post ∧ ss' = pre ++ post ∧ SectionData.id s = sid
    ∧ Forall (λ s, SectionData.id s ≠ sid) pre.
Proof.
  revert ss'. induction ss as [|s ss IH]; intros ss'; [discriminate|].
  cbn [delete_first_section]. case_bool_decide as Hs.
  - intros [= <-]. exists [], s, ss. done.
  - destruct (delete_first_section sid ss) as [ss1|]; [|discriminate].
    intros [= <-]. destruct (IH ss1 eq_refl) as (pre & s1 & post & -> & -> & Hid & Hpre).
    exists (s :: pre), s1, post. split; [reflexivity|]. split; [reflexivity|].
    split; [exact Hid|]. now constructor.
Qed.

Lemma delete_first_section_none (sid : Z) (ss : list SectionData.t) :
  delete_first_section sid ss = None
  ↔ List.find (λ s, bool_decide (SectionData.id s = sid)) ss = None.
Proof.
  induction ss as [|s ss IH]; [done|].
  cbn [delete_first_section List.find]. case_bool_decide; [done|].
  rewrite <- IH. now destruct (delete_first_section sid ss).
Qed.

(** X16: as long as the section ids are pairwise distinct they stay so
    under [create_section] and [delete_section], and after a successful
    [delete_section] no section answers to the deleted id. *)
Theorem unique_section_ids_preserved (name : string) (sid : Z)
    (dm : DataManager.t) :
  unique_section_ids dm →
  unique_section_ids (DataManager_create_section name dm).2
  ∧ unique_section_ids (DataManager_delete_section sid dm).2
  ∧ ((DataManager_delete_section sid dm).1 = true →
     DataManager.get_section_by_id sid (DataManager_delete_section sid dm).2
     = None).
Proof.
  unfold unique_section_ids. intros Hunique. split; [|split].
  - pose proof (create_section_id_fresh name dm) as Hfresh.
    cbn [DataManager_create_section snd fst DataManager.sections] in *.
    rewrite fmap_app. apply NoDup_app. split; [exact Hunique|].
    split; [|apply NoDup_singleton].
    intros x Hx Hnew. apply list_elem_of_fmap in Hx as (s & -> & Hs).
    apply (proj1 (Forall_forall _ _) Hfresh) in Hs.
    cbn [fmap list_fmap] in Hnew. apply list_elem_of_singleton in Hnew.
    rewrite Hnew in Hs. lia.
  - unfold DataManager_delete_section.
    destruct (delete_first_section sid (DataManager.sections dm)) as [ss'|]
      eqn:Hdelete; [|exact Hunique].
    apply delete_first_section_sublist in Hdelete
      as (pre & s & post & Hss & -> & _ & _).
    cbn [snd DataManager.sections]. rewrite Hss in Hunique.
    rewrite fmap_app in *. rewrite fmap_cons in Hunique.
    apply NoDup_app in Hunique as (Hpre & Hdisjoint & Hpost).
    apply NoDup_cons in Hpost as [_ Hpost].
    apply NoDup_app. split; [exact Hpre|]. split; [|exact Hpost].
    intros x Hx Hx'. apply (Hdisjoint x Hx). apply elem_of_cons. now right.
  - unfold DataManager_delete_section.
    destruct (delete_first_section sid (DataManager.sections dm)) as [ss'|]
      eqn:Hdelete; [|discriminate].
    intros _.
    apply delete_first_section_sublist in Hdelete
      as (pre & s & post & Hss & -> & Hid & Hpre).
    cbn [snd]. unfold DataManager.get_section_by_id. cbn [DataManager.sections].
    apply find_section_none. rewrite Hss in Hunique.
    rewrite fmap_app in *. rewrite fmap_cons in Hunique.
    apply NoDup_app in Hunique as (_ & Hdisjoint & Hpost).
    apply NoDup_cons in Hpost as [Hs _]. rewrite Hid in *.
    intros Hin. apply elem_of_app in Hin as [Hin|Hin]; [|done].
    apply (Hdisjoint sid Hin). apply elem_of_cons. now left.
Qed.

(** X17: the current section id, when there is one, names an existing
    section: this holds in a new [DataManager] and is kept by
    [create_section], [set_current_section] and [delete_section], the last
    of which moves the current section to the first remaining one when the
    current section is deleted. *)
Theorem current_section_exists_preserved (name : string) (sid : Z)
    (dm : DataManager.t) :
  current_section_exists DataManager_new
  ∧ (current_section_exists dm →
     current_section_exists (DataManager_create_section name dm).2
     ∧ current_section_exists (DataManager_set_current_section sid dm).2
     ∧ current_section_exists (DataManager_delete_section sid dm).2).
Proof.
  split; [cbn; eauto|]. intros Hcurrent. split; [|split].
  - change (is_Some (DataManager.get_section_by_id
                       (SectionData.id (DataManager_create_section name dm).1)
                       (DataManager_create_section name dm).2)).
    rewrite create_section_found. eauto.
  - unfold DataManager_set_current_section.
    destruct (DataManager.get_section_by_id sid dm) as [s|] eqn:Hs;
      [|exact Hcurrent].
    unfold current_section_exists. cbn [snd DataManager.current_section_id].
    change (is_Some (DataManager.get_section_by_id sid dm)). rewrite Hs. eauto.
  - unfold DataManager_delete_section.
    destruct (delete_first_section sid (DataManager.sections dm)) as [ss'|]
      eqn:Hdelete; [|exact Hcurrent].
    apply delete_first_section_sublist in Hdelete
      as (pre & s & post & Hss & -> & Hid & Hpre).
    unfold current_section_exists, DataManager.get_section_by_id in *.
    cbn [snd DataManager.current_section_id DataManager.sections].
    case_bool_decide as Hcur.
    + destruct (pre ++ post) as [|first rest]; [done|].
      cbn [List.find]. rewrite bool_decide_eq_true_2 by reflexivity. eauto.
    + destruct (DataManager.current_section_id dm) as [c|]; [|done].
      assert (c ≠ sid) by congruence.
      rewrite Hss in Hcurrent.
      revert Hcurrent. clear -H Hid.
      induction pre as [|p pre IH]; cbn [app List.find].
      * rewrite bool_decide_eq_false_2 by congruence. done.
      * destruct (bool_decide (SectionData.id p = c)); [eauto|exact IH].
Qed.

(** ** Regeneration, export and lookup *)


Section Regeneration.
Context `{Shapely}.








End Regeneration.


Section Reconciliation.
Context `{Shapely}.




End Reconciliation.

(** ** Polygon vertices *)




(** ** Undo without a prior mesh, and the triangular strategy *)

Section FirstMesh.
Context `{Shapely}.


End FirstMesh.

Section Triangular.
Context `{Shapely} `{TriEngine}.

Lemma tri_add_nodes_exact (vertices : list (list Q)) :
  Forall (λ vertex, (2 ≤ length vertex)%nat) vertices →
  ∀ mesh,
    MeshGenerator.tri_add_nodes vertices mesh
    = Mesh.mk (Mesh.id mesh)
        (Mesh.nodes mesh
         ++ map (λ vertex, (nth 1 vertex 0%Q, nth 0 vertex 0%Q)) vertices)
        (Mesh.elements mesh) (Mesh.element_materials mesh) (Mesh.fibers mesh).
Proof.
  induction 1 as [|vertex vertices Hvertex _ IH]; intros mesh.
  - cbn. rewrite app_nil_r. now destruct mesh.
  - cbn [MeshGenerator.tri_add_nodes].
    destruct vertex as [|x [|y rest]]; cbn in Hvertex; try lia.
    rewrite IH. cbn [Mesh.add_node fst Mesh.id Mesh.nodes Mesh.elements
                     Mesh.element_materials Mesh.fibers map nth].
    now rewrite <- app_assoc.
Qed.

Lemma tri_add_elements_exact (triangles : list (list nat)) :
  Forall (λ triangle, (3 ≤ length triangle)%nat) triangles →
  ∀ mesh,
    MeshGenerator.tri_add_elements triangles mesh
    = Mesh.mk (Mesh.id mesh) (Mesh.nodes mesh)
        (Mesh.elements mesh ++ map (take 3) triangles)
        (Mesh.element_materials mesh ++ replicate (length triangles) 1)
        (Mesh.fibers mesh).
Proof.
  induction 1 as [|triangle triangles Htriangle _ IH]; intros mesh.
  - cbn. rewrite !app_nil_r. now destruct mesh.
  - cbn [MeshGenerator.tri_add_elements]. rewrite decide_True by exact Htriangle.
    rewrite IH. cbn [Mesh.add_element fst Mesh.id Mesh.nodes Mesh.elements
                     Mesh.element_materials Mesh.fibers map length replicate].
    now rewrite <- !app_assoc.
Qed.

(** X24: for an active shape that is not quadrilateral, when the
    triangulation succeeds with vertices of at least two coordinates and
    triangles of at least three node ids, the mesh of the shape has one
    node per vertex, with the two coordinates exchanged back, and one
    element per triangle made of its first three node ids (the mid-side
    nodes of six-node triangles are dropped); the placeholder material of
    every element is 1 and one mesh id is used. *)
Theorem tri_mesh_of_engine_output (shape : Shape.t) (g : Py.val) (cur : Z)
    (out : tri_output) :
  Shape.active shape = true →
  Shape.mesh_type shape ≠ "quadrilateral" →
  create_mesh (MeshGenerator.tri_geometries [shape])
    (MeshGenerator.effective_mesh_size shape g) = Some out →
  Forall (λ vertex, (2 ≤ length vertex)%nat) (mesh_vertices out) →
  Forall (λ triangle, (3 ≤ length triangle)%nat) (mesh_triangles out) →
  MeshGenerator.generate_shape_mesh shape g cur
  = Ok (Some (Mesh.mk cur
                (map (λ vertex, (nth 1 vertex 0%Q, nth 0 vertex 0%Q))
                   (mesh_vertices out))
                (map (take 3) (mesh_triangles out))
                (replicate (length (mesh_triangles out)) 1) []))
       (cur + 1).
Proof.
  intros Hactive Htype Hout Hvertices Htriangles.
  unfold MeshGenerator.generate_shape_mesh. cbn [Py.getattr].
  rewrite (proj2 (String.eqb_neq _ _) Htype).
  unfold MeshGenerator._generate_tri_mesh.
  fold (MeshGenerator.effective_mesh_size shape g). rewrite Hout.
  cbn [MeshGenerator.tri_geometries] in *. rewrite Hactive in *.
  rewrite tri_add_nodes_exact by exact Hvertices.
  rewrite tri_add_elements_exact by exact Htriangles.
  reflexivity.
Qed.

End Triangular.

(** ** Mesh sizes the quadrilateral strategy accepts *)

Lemma floor_nonpositive (extent size : Q) :
  (0 <= extent)%Q → (size < 0)%Q → Qfloor (extent / size) ≤ 0.
Proof.
  intros Hextent Hsize.
  assert (Hle : (extent / size <= 0)%Q).
  { assert (Heq : (extent / size == (- extent) / (- size))%Q).
    { field. intros Hz. rewrite Hz in Hsize. now apply Qlt_irrefl in Hsize. }
    rewrite Heq. apply Qle_shift_div_r; lra. }
  apply Qfloor_resp_le in Hle. exact Hle.
Qed.

Lemma concat_filter_length {A B} (P : nat → A → Prop)
    `{∀ i a, Decision (P i a)} (f : nat → A → B) (l : list A)
    (rows : list nat) :
  (length (concat (map (λ i, map (f i) (filter (P i) l)) rows))
   ≤ length rows * length l)%nat.
Proof.
  induction rows as [|i rows IH]; cbn [map concat length]; [lia|].
  rewrite length_app, length_map.
  pose proof (length_filter (P i) l). cbn [Nat.mul]. lia.
Qed.

Section QuadSizes.
Context `{Shapely} `{TriEngine}.

Lemma quad_mesh_sizes (shape : Shape.t) (g : Py.val) (cur : Z)
    (min_y min_z max_y max_z : Q) :
  Shape.active shape = true →
  Shape.mesh_type shape = "quadrilateral" →
  ¬ (MeshGenerator.effective_mesh_size shape g == 0)%Q →
  bounds (Shape.geometry shape) = (min_y, min_z, max_y, max_z) →
  let size := MeshGenerator.effective_mesh_size shape g in
  let nY := spec_grid_count (max_y - min_y) size in
  let nZ := spec_grid_count (max_z - min_z) size in
  ∃ mesh,
    MeshGenerator.generate_shape_mesh shape g cur = Ok (Some mesh) (cur + 1)
    ∧ length (Mesh.nodes mesh) = ((nZ + 1) * (nY + 1))%nat
    ∧ (length (Mesh.elements mesh) ≤ nZ * nY)%nat.
Proof.
  intros Hactive Htype Hsize Hbounds size nY nZ.
  unfold MeshGenerator.generate_shape_mesh. cbn [Py.getattr].
  rewrite Htype. cbn [String.eqb Ascii.eqb Bool.eqb].
  unfold MeshGenerator._generate_quad_mesh.
  fold (MeshGenerator.effective_mesh_size shape g). fold size.
  cbn [MeshGenerator.quad_bounding_box]. rewrite Hactive, Hbounds.
  destruct (Qeq_bool size 0) eqn:Hzero;
    [now apply Qeq_bool_iff in Hzero|].
  rewrite !max_2_int_floor.
  assert (HnY : Z.max 2 (Qfloor ((max_y - min_y) / size)) = Z.of_nat nY)
    by (unfold nY, spec_grid_count; lia).
  assert (HnZ : Z.max 2 (Qfloor ((max_z - min_z) / size)) = Z.of_nat nZ)
    by (unfold nZ, spec_grid_count; lia).
  rewrite HnY, HnZ.
  replace (Z.to_nat (Z.of_nat nZ + 1)) with (nZ + 1)%nat by lia.
  rewrite Nat2Z.id, quad_node_rows_spec.
  rewrite filter_cons_True, filter_nil by exact Hactive.
  cbn [Mesh.new Mesh.id Mesh.nodes Mesh.elements Mesh.element_materials
       Mesh.fibers app length Nat.add].
  rewrite length_seq.
  destruct (quad_cell_rows_spec min_y min_z (max_y - min_y)%Q
              (max_z - min_z)%Q nY nZ [shape] (seq 0 nZ))
    with (mesh := Mesh.mk cur
                    (concat (map (λ i, map (λ j,
                       ((min_y + inject_Z (Z.of_nat j) * (max_y - min_y)
                                 / inject_Z (Z.of_nat nY))%Q,
                        (min_z + inject_Z (Z.of_nat i) * (max_z - min_z)
                                 / inject_Z (Z.of_nat nZ))%Q))
                       (seq 0 (nY + 1))) (seq 0 (nZ + 1)))) [] [] [])
    as (mesh & Hrun & Hnodes & Hels); [|reflexivity|].
  { apply Forall_forall. intros i Hi. apply elem_of_seq in Hi. lia. }
  unfold point in *. rewrite Hrun. exists mesh. split; [reflexivity|]. split.
  - rewrite Hnodes. apply concat_uniform_length.
    intros i. now rewrite length_map, length_seq.
  - rewrite Hels. cbn [Mesh.elements app].
    eapply Nat.le_trans; [apply concat_filter_length|].
    now rewrite !length_seq.
Qed.

(** X25: a negative mesh size is accepted by the quadrilateral strategy
    and gives the coarsest grid: 2 by 2 cells, that is 9 nodes and at most
    4 elements, whatever the extent of the shape. *)
Theorem quad_negative_mesh_size_coarsest_grid (shape : Shape.t) (g : Py.val)
    (cur : Z) (min_y min_z max_y max_z : Q) :
  Shape.active shape = true →
  Shape.mesh_type shape = "quadrilateral" →
  (MeshGenerator.effective_mesh_size shape g < 0)%Q →
  bounds (Shape.geometry shape) = (min_y, min_z, max_y, max_z) →
  (min_y <= max_y)%Q → (min_z <= max_z)%Q →
  ∃ mesh,
    MeshGenerator.generate_shape_mesh shape g cur = Ok (Some mesh) (cur + 1)
    ∧ length (Mesh.nodes mesh) = 9%nat
    ∧ (length (Mesh.elements mesh) ≤ 4)%nat.
Proof.
  intros Hactive Htype Hsize Hbounds Hy Hz.
  assert (Hnonzero : ¬ (MeshGenerator.effective_mesh_size shape g == 0)%Q).
  { intros Hzero. rewrite Hzero in Hsize. now apply Qlt_irrefl in Hsize. }
  destruct (quad_mesh_sizes shape g cur min_y min_z max_y max_z
              Hactive Htype Hnonzero Hbounds) as (mesh & Hrun & Hnodes & Hels).
  assert (HnY : spec_grid_count (max_y - min_y)
                  (MeshGenerator.effective_mesh_size shape g) = 2%nat).
  { unfold spec_grid_count.
    pose proof (floor_nonpositive (max_y - min_y)
                  (MeshGenerator.effective_mesh_size shape g)
                  ltac:(lra) Hsize). lia. }
  assert (HnZ : spec_grid_count (max_z - min_z)
                  (MeshGenerator.effective_mesh_size shape g) = 2%nat).
  { unfold spec_grid_count.
    pose proof (floor_nonpositive (max_z - min_z)
                  (MeshGenerator.effective_mesh_size shape g)
                  ltac:(lra) Hsize). lia. }
  rewrite HnY, HnZ in *. exists mesh. split; [exact Hrun|]. split; [exact Hnodes|].
  exact Hels.
Qed.

End QuadSizes.

(** * The further properties on the example data *)


Lemma bad_mesh_example_invalid : ¬ Mesh.indices_valid bad_mesh_example.
Proof.
  unfold Mesh.indices_valid, bad_mesh_example. cbn. intros Hvalid.
  apply Forall_cons_1 in Hvalid as [_ Hvalid].
  apply Forall_cons_1 in Hvalid as [Hvalid _].
  apply Forall_cons_1 in Hvalid as [_ Hvalid].
  apply Forall_cons_1 in Hvalid as [_ Hvalid].
  apply Forall_cons_1 in Hvalid as [Hvalid _]. lia.
Defined.







Lemma merge_shape_mesh_appends_witness :
  Mesh.indices_valid new_mesh_example
  ∧ MeshGenerator.merge_shape_mesh inner_square new_mesh_example
      old_mesh_example
    = Some (Mesh.mk 1
              (Mesh.nodes old_mesh_example ++ Mesh.nodes new_mesh_example)
              [[0; 1; 2; 3]; [4; 5; 6]; [4; 6; 7]]%nat [1; 7; 7]
              (Mesh.fibers old_mesh_example)).
Proof.
  split; [exact new_mesh_example_valid|].
  exact (merge_shape_mesh_appends inner_square new_mesh_example
           old_mesh_example new_mesh_example_valid).
Defined.

Lemma generate_mesh_element_arity_witness :
  ∃ m cur',
    @MeshGenerator.generate_mesh BoxShapely DiagonalTri
      [square2; quad_square2_size1] (PyFloat 1) 1 = Ok (Some m) cur'
    ∧ length <$> Mesh.elements m = [3; 3; 4; 4; 4; 4]%nat
    ∧ Forall (λ element, length element = 3%nat ∨ length element = 4%nat)
        (Mesh.elements m).
Proof.
  eexists. eexists. split; [vm_compute; reflexivity|].
  split; [reflexivity|].
  eapply (@generate_mesh_element_arity BoxShapely DiagonalTri
            [square2; quad_square2_size1] (PyFloat 1) 1).
  vm_compute. reflexivity.
Defined.

Lemma generate_mesh_element_materials_witness :
  ∃ m cur',
    @MeshGenerator.generate_mesh BoxShapely DiagonalTri
      [inner_square; quad_square2_size1] (PyFloat 1) 1 = Ok (Some m) cur'
    ∧ Mesh.element_materials m = [7; 7; 1; 1; 1; 1]
    ∧ length (Mesh.element_materials m) = length (Mesh.elements m)
    ∧ Forall (λ mat, mat ≠ 0
                     ∧ ∃ shape, shape ∈ [inner_square; quad_square2_size1]
                                ∧ Shape.active shape = true
                                ∧ mat = Py.or_1 (Shape.material_id shape))
        (Mesh.element_materials m).
Proof.
  eexists. eexists. split; [vm_compute; reflexivity|].
  split; [reflexivity|].
  eapply (@generate_mesh_element_materials BoxShapely DiagonalTri
            [inner_square; quad_square2_size1] (PyFloat 1) 1).
  vm_compute. reflexivity.
Defined.


Lemma generate_mesh_skips_shape_witness :
  [square2] ≠ []
  ∧ Shape.active inactive_square2 = false
  ∧ @MeshGenerator.generate_mesh BoxShapely DiagonalTri
      [inactive_square2; square2] (PyFloat 1) 1
    = @MeshGenerator.generate_mesh BoxShapely DiagonalTri
        [square2] (PyFloat 1) 1.
Proof.
  split; [discriminate|]. split; [reflexivity|].
  apply (@generate_mesh_skips_shape BoxShapely DiagonalTri
           inactive_square2 [square2] (PyFloat 1) 1);
    [discriminate|left; reflexivity].
Defined.

Lemma add_shape_undo_restores_witness :
  DataManager.get_section_by_id 1 dm_example = Some section_example
  ∧ Forall (λ s, Shape.id s ≠ Shape.id outer_square)
      (SectionData.shapes section_example)
  ∧ ∃ dm1,
      @DataManager.add_shape BoxShapely 1 outer_square dm_example = Ok tt dm1
      ∧ SectionData.shapes <$> DataManager.get_section_by_id 1 dm1
        = Some [square2; outer_square]
      ∧ DataManager.undo dm1
        = (true,
           DataManager.mk (DataManager.sections dm_example)
             (DataManager.current_section_id dm_example)
             (DataManager.meshes dm_example)
             (DataManager.undo_stack dm_example)
             [OperationAddShape 1 outer_square]).
Proof.
  assert (Hfresh : Forall (λ s, Shape.id s ≠ Shape.id outer_square)
                     (SectionData.shapes section_example))
    by (repeat constructor; discriminate).
  split; [exact dm_example_section|]. split; [exact Hfresh|].
  exact (@add_shape_undo_restores BoxShapely 1 outer_square dm_example
           section_example dm_example_section Hfresh).
Defined.

Lemma add_shape_undo_removes_older_shape_witness :
  DataManager.get_section_by_id 1 dm_two_shapes_example
  = Some two_shapes_section_example
  ∧ SectionData.shapes two_shapes_section_example
    = [] ++ square2 :: [outer_square]
  ∧ Shape.id square2 = Shape.id inner_square
  ∧ ∃ dm1 dm2,
      @DataManager.add_shape BoxShapely 1 inner_square dm_two_shapes_example
      = Ok tt dm1
      ∧ DataManager.undo dm1 = (true, dm2)
      ∧ SectionData.shapes <$> DataManager.get_section_by_id 1 dm2
        = Some [outer_square; inner_square].
Proof.
  split; [reflexivity|]. split; [reflexivity|]. split; [reflexivity|].
  exact (@add_shape_undo_removes_older_shape BoxShapely 1 inner_square
           square2 dm_two_shapes_example two_shapes_section_example
           [] [outer_square] eq_refl eq_refl eq_refl (Forall_nil_2 _)).
Defined.

Lemma delete_shape_undo_moves_shape_last_witness :
  DataManager.get_section_by_id 1 dm_two_shapes_example
  = Some two_shapes_section_example
  ∧ SectionData.get_shape_by_id 1 two_shapes_section_example = Some square2
  ∧ ∃ dm1 dm2,
      @DataManager.delete_shape BoxShapely 1 1 dm_two_shapes_example
      = Ok true dm1
      ∧ DataManager.undo dm1 = (true, dm2)
      ∧ SectionData.shapes <$> DataManager.get_section_by_id 1 dm2
        = Some [outer_square; square2].
Proof.
  split; [reflexivity|]. split; [reflexivity|].
  destruct (@delete_shape_undo_moves_shape_last BoxShapely 1 1
              dm_two_shapes_example two_shapes_section_example square2
              eq_refl eq_refl)
    as (dm1 & dm2 & pre & post & Hdelete & Hundo & _).
  exists dm1, dm2. split; [exact Hdelete|]. split; [exact Hundo|].
  vm_compute in Hdelete. injection Hdelete as <-.
  vm_compute in Hundo. injection Hundo as <-.
  reflexivity.
Defined.

Lemma delete_shape_unknown_witness :
  (∃ section, DataManager.get_section_by_id 1 dm_example = Some section
              ∧ Forall (λ s, Shape.id s ≠ 99) (SectionData.shapes section))
  ∧ DataManager.get_section_by_id 5 dm_example = None
  ∧ @DataManager.delete_shape BoxShapely 1 99 dm_example = Ok false dm_example
  ∧ @DataManager.delete_shape BoxShapely 5 1 dm_example = Ok false dm_example.
Proof.
  assert (Hshape : ∃ section,
            DataManager.get_section_by_id 1 dm_example = Some section
            ∧ Forall (λ s, Shape.id s ≠ 99) (SectionData.shapes section)).
  { exists section_example. split; [reflexivity|].
    repeat constructor; discriminate. }
  split; [exact Hshape|]. split; [reflexivity|]. split.
  - exact (@delete_shape_unknown BoxShapely 1 99 dm_example
             (or_intror Hshape)).
  - reflexivity.
Defined.

Lemma unique_section_ids_preserved_witness :
  unique_section_ids dm_example
  ∧ unique_section_ids (DataManager_create_section "Section 2" dm_example).2
  ∧ unique_section_ids (DataManager_delete_section 1 dm_example).2
  ∧ DataManager.get_section_by_id 1 (DataManager_delete_section 1 dm_example).2
    = None.
Proof.
  assert (Hunique : unique_section_ids dm_example).
  { unfold unique_section_ids. cbn. apply NoDup_singleton. }
  split; [exact Hunique|].
  destruct (unique_section_ids_preserved "Section 2" 1 dm_example Hunique)
    as (Hcreate & Hdelete & Hgone).
  split; [exact Hcreate|]. split; [exact Hdelete|]. apply Hgone. reflexivity.
Defined.






Lemma tri_mesh_of_engine_output_witness :
  Shape.active square2 = true
  ∧ Shape.mesh_type square2 ≠ "quadrilateral"
  ∧ ∃ out,
      @create_mesh DiagonalTri
        (@MeshGenerator.tri_geometries BoxShapely [square2])
        (MeshGenerator.effective_mesh_size square2 (PyFloat 1)) = Some out
      ∧ Forall (λ vertex, (2 ≤ length vertex)%nat) (mesh_vertices out)
      ∧ Forall (λ triangle, (3 ≤ length triangle)%nat) (mesh_triangles out)
      ∧ ∃ nodes,
          @MeshGenerator.generate_shape_mesh BoxShapely DiagonalTri
            square2 (PyFloat 1) 1
          = Ok (Some (Mesh.mk 1 nodes [[0; 1; 2]; [0; 2; 3]]%nat [1; 1] [])) 2
          ∧ length nodes = length (mesh_vertices out).
Proof.
  assert (Htype : Shape.mesh_type square2 ≠ "quadrilateral")
    by discriminate.
  split; [reflexivity|]. split; [exact Htype|].
  pose (out := {| mesh_vertices :=
                    [[-2 # 2; -2 # 2]; [-2 # 2; 2 # 2]; [2 # 2; 2 # 2];
                     [2 # 2; -2 # 2]]%Q;
                  mesh_triangles := [[0; 1; 2]; [0; 2; 3]]%nat |}).
  assert (Hout : @create_mesh DiagonalTri
                   (@MeshGenerator.tri_geometries BoxShapely [square2])
                   (MeshGenerator.effective_mesh_size square2 (PyFloat 1))
                 = Some out) by (vm_compute; reflexivity).
  assert (Hvertices : Forall (λ vertex : list Q, (2 ≤ length vertex)%nat)
                        (mesh_vertices out))
    by (cbn; repeat constructor).
  assert (Htriangles : Forall (λ triangle : list nat,
                                 (3 ≤ length triangle)%nat)
                         (mesh_triangles out))
    by (cbn; repeat constructor).
  exists out. split; [exact Hout|].
  split; [exact Hvertices|]. split; [exact Htriangles|].
  eexists. split.
  - exact (@tri_mesh_of_engine_output BoxShapely DiagonalTri square2
             (PyFloat 1) 1 out eq_refl Htype Hout Hvertices Htriangles).
  - now rewrite length_map.
Defined.

Lemma quad_negative_mesh_size_coarsest_grid_witness :
  Shape.active quad_square2_negative = true
  ∧ Shape.mesh_type quad_square2_negative = "quadrilateral"
  ∧ (MeshGenerator.effective_mesh_size quad_square2_negative (PyFloat 5)
     < 0)%Q
  ∧ @bounds BoxShapely (Shape.geometry quad_square2_negative)
    = ((-2 # 2)%Q, (-2 # 2)%Q, (2 # 2)%Q, (2 # 2)%Q)
  ∧ ∃ mesh,
      @MeshGenerator.generate_shape_mesh BoxShapely DiagonalTri
        quad_square2_negative (PyFloat 5) 1 = Ok (Some mesh) 2
      ∧ length (Mesh.nodes mesh) = 9%nat
      ∧ (length (Mesh.elements mesh) ≤ 4)%nat.
Proof.
  split; [reflexivity|]. split; [reflexivity|]. split; [reflexivity|].
  split; [vm_compute; reflexivity|].
  exact (@quad_negative_mesh_size_coarsest_grid BoxShapely DiagonalTri
           quad_square2_negative (PyFloat 5) 1 _ _ _ _
           eq_refl eq_refl eq_refl eq_refl
           ltac:(vm_compute; discriminate) ltac:(vm_compute; discriminate)).
Defined.

Lemma merge_shape_mesh_key_error_witness :
  ¬ Mesh.indices_valid bad_mesh_example
  ∧ MeshGenerator.merge_shape_mesh square2 bad_mesh_example old_mesh_example
    = None.
Proof.
  split; [exact bad_mesh_example_invalid|].
  exact (proj2 (merge_shape_mesh_key_error square2 bad_mesh_example
                  old_mesh_example) bad_mesh_example_invalid).
Defined.

Lemma current_section_exists_preserved_witness :
  current_section_exists dm_example
  ∧ current_section_exists (DataManager_create_section "Section 2" dm_example).2
  ∧ current_section_exists (DataManager_set_current_section 1 dm_example).2
  ∧ current_section_exists (DataManager_delete_section 1 dm_example).2.
Proof.
  assert (Hcurrent : current_section_exists dm_example).
  { unfold current_section_exists. cbn. eexists. reflexivity. }
  split; [exact Hcurrent|].
  exact (proj2 (current_section_exists_preserved "Section 2" 1 dm_example)
           Hcurrent).
Defined.
